(** * langcheck: the LLM-as-judge metrics

    A shallow embedding of
    - [src/langcheck/metrics/en/pairwise_text_quality.py]
      ([pairwise_comparison] and its local prompt functions), and
    - [src/langcheck/eval/en/reference_free_text_quality.py]
      ([sentiment], [_sentiment_local], [_sentiment_openai]),
    followed by the properties of the specification that concern them.

    Conventions.  Python [str] is [string]; [float] is idealised as a real
    number ([R]): the code only ever produces the constants 0.0, 0.5 and 1.0
    and one sum of softmax columns, and never compares floats.  A [dict] is
    an association list in insertion order.  Effects (remote calls, printing,
    the progress bar, module globals) are explicit state; exceptions are the
    [Raise] outcome of a computation. *)

From Stdlib Require Import String Ascii List Bool Arith Lia Reals Lra.
Import ListNotations.

Open Scope list_scope.
Open Scope string_scope.

(** ** A fragment of the Python runtime *)

Module Py.

(** The line break ['\n']. *)
Definition nl : string := String "010"%char EmptyString.

(** The double quote character, as a one-character string. *)
Definition dq : string := String "034"%char EmptyString.

(** The exceptions that the modelled code can raise.  The first group is
    raised by the source itself or by the interpreter; the last three are the
    error conditions that the specification names for the judge client. *)
Inductive exn : Type :=
| AssertionError (msg : string)
| TypeError (keyword : string)
| KeyError (key : string)
| JSONDecodeError
| APIError
| TransportError
| MalformedJudgeResponse
| UnrecognizedAssessment.

Inductive result (A : Type) : Type :=
| Ok (a : A)
| Raise (e : exn).
Arguments Ok {A} a.
Arguments Raise {A} e.

(** Computations over a state [S] that may raise. *)
Definition M (S A : Type) : Type := S -> result A * S.

Definition ret {S A} (a : A) : M S A := fun s => (Ok a, s).

Definition raise {S A} (e : exn) : M S A := fun s => (Raise e, s).

Definition bind {S A B} (c : M S A) (k : A -> M S B) : M S B :=
  fun s =>
    match c s with
    | (Ok a, s') => k a s'
    | (Raise e, s') => (Raise e, s')
    end.

Definition lift {S A} (r : result A) : M S A := fun s => (r, s).

Definition modify {S} (f : S -> S) : M S unit := fun s => (Ok tt, f s).

Definition gets {S A} (f : S -> A) : M S A := fun s => (Ok (f s), s).

(** [assert cond, msg] *)
Definition assert_ {S} (cond : bool) (msg : string) : M S unit :=
  if cond then ret tt else raise (AssertionError msg).

(** [x is not None] and [x is None] *)
Definition is_not_None {A} (x : option A) : bool :=
  match x with Some _ => true | None => false end.

Definition is_None {A} (x : option A) : bool :=
  match x with Some _ => false | None => true end.

(** [x in [a, b, ...]] on strings. *)
Definition str_in (x : string) (l : list string) : bool :=
  existsb (String.eqb x) l.

(** A [dict] with string keys, in insertion order. *)
Definition dict (V : Type) : Type := list (string * V).

Fixpoint dict_get {V} (d : dict V) (k : string) : option V :=
  match d with
  | [] => None
  | (k', v) :: d' => if String.eqb k k' then Some v else dict_get d' k
  end.

Definition keys {V} (d : dict V) : list string := map fst d.

(** An argument annotated [List[str] | str]: iterating a [str] yields its
    characters, each as a one-character [str]. *)
Inductive strs : Type :=
| StrList (l : list string)
| Str (s : string).

Fixpoint chars (s : string) : list string :=
  match s with
  | EmptyString => []
  | String c s' => String c EmptyString :: chars s'
  end.

Definition iter (x : strs) : list string :=
  match x with
  | StrList l => l
  | Str s => chars s
  end.

Definition len (x : strs) : nat :=
  match x with
  | StrList l => List.length l
  | Str s => String.length s
  end.

(** [zip(s1, ..., sn)]: tuples (as lists) of the i-th elements, as many as
    the shortest argument has. *)
Fixpoint zip_cons (xs : list string) (tuples : list (list string))
  : list (list string) :=
  match xs, tuples with
  | x :: xs', t :: tuples' => (x :: t) :: zip_cons xs' tuples'
  | _, _ => []
  end.

Fixpoint zip (seqs : list (list string)) : list (list string) :=
  match seqs with
  | [] => []
  | [xs] => map (fun x => [x]) xs
  | xs :: rest => zip_cons xs (zip rest)
  end.

End Py.

Import Py.

Declare Scope py_scope.
Delimit Scope py_scope with py.
Notation "x <- c ;; k" := (bind c (fun x => k))
  (at level 61, c at next level, right associativity) : py_scope.
Notation "' pat <- c ;; k" := (bind c (fun x => match x with pat => k end))
  (at level 61, pat pattern, c at next level, right associativity) : py_scope.
Notation "c ;;; k" := (bind c (fun _ => k))
  (at level 61, right associativity) : py_scope.
Open Scope py_scope.

(** ** The remote chat-completion interface *)

Module Remote.

(** One entry of [messages]. *)
Record ChatMessage : Type := {
  role : string;
  content : string
}.

(** One entry of [functions]: a callable with a single required string
    parameter restricted to [parameter_enum]. *)
Record FunctionSchema : Type := {
  name : string;
  description : string;
  parameter : string;
  parameter_enum : list string;
  parameter_description : string
}.

(** The keyword arguments of one chat-completion call.  [options] holds
    every keyword other than the three fixed ones ([model=...] or the
    entries of [**openai_args]).  [extraction] is the follow-up prompt
    template that the pairwise evaluator is handed; the sentiment path has
    none. *)
Record Request : Type := {
  messages : list ChatMessage;
  functions : list FunctionSchema;
  function_call : string;
  options : dict string;
  extraction : option (string -> string)
}.

(** [response["choices"][0]["message"]["function_call"]["arguments"]]
    after [json.loads]: the key may be missing, the text may not be JSON,
    or it decodes to an object. *)
Inductive FunctionCall : Type :=
| NoFunctionCall
| Undecodable
| Arguments (obj : dict string).

(** What a call does: it raises, or it answers with a message made of free
    text and a function call. *)
Inductive Response : Type :=
| ApiFailure
| Choice (text : string) (call : FunctionCall).

(** Keywords that the call sites pass by name next to [**openai_args]; the
    interpreter refuses a call that receives one of them twice. *)
Definition fixed_keywords : list string :=
  ["messages"; "functions"; "function_call"].

Definition duplicate_keyword (openai_args : dict string) : option string :=
  find (fun k => str_in k fixed_keywords) (keys openai_args).

(** The label that a response carries under the argument name [arg], and
    its free text. *)
Definition label_of (arg : string) (r : Response) : option string :=
  match r with
  | Choice _ (Arguments obj) => dict_get obj arg
  | _ => None
  end.

Definition text_of (r : Response) : string :=
  match r with
  | Choice text _ => text
  | ApiFailure => EmptyString
  end.

End Remote.

Import Remote.

(** ** pairwise_text_quality.py *)

Module Pairwise.

(** The local prompt functions of [pairwise_comparison]. *)

Definition _prompt (gen_output_a gen_output_b user_query : string) : string :=
  nl ++
  "        You are comparing the quality of two responses to a user's query. Here" ++ nl ++
  "        is the data:" ++ nl ++
  "        [BEGIN DATA]" ++ nl ++
  "        ************" ++ nl ++
  "        [User Query]: " ++ user_query ++ nl ++
  "        ************" ++ nl ++
  "        [Response A]: " ++ gen_output_a ++ nl ++
  "        ************" ++ nl ++
  "        [Response B]: " ++ gen_output_b ++ nl ++
  "        ************" ++ nl ++
  "        [END DATA]" ++ nl ++
  nl ++
  "        Determine which of the responses is a better response to the user's" ++ nl ++
  "        query. Consider factors such as helpfulness, correctness, and relevance" ++ nl ++
  "        in your assessment. Do not allow the order in which the responses were" ++ nl ++
  "        presented to influence your assessment. Do not allow the length of the" ++ nl ++
  "        responses to influence your assessment. The available assessments are:" ++ nl ++
  "        `Response A` - Response A is a better response." ++ nl ++
  "        `Response B` - Response B is a better response." ++ nl ++
  "        `Tie` - The two responses are roughly equal in quality." ++ nl ++
  nl ++
  "        Take a deep breath and work on this problem step-by-step." ++ nl ++
  "        ".

Definition _prompt_with_reference
  (gen_output_a gen_output_b user_query ref_output : string) : string :=
  nl ++
  "        You are comparing the quality of two responses to a user's query. The" ++ nl ++
  "        ideal response to the user's query is also provided to you as a" ++ nl ++
  "        reference. Here is the data:" ++ nl ++
  "        [BEGIN DATA]" ++ nl ++
  "        ************" ++ nl ++
  "        [Ideal Response]: " ++ ref_output ++ nl ++
  "        ************" ++ nl ++
  "        [User Query]: " ++ user_query ++ nl ++
  "        ************" ++ nl ++
  "        [Response A]: " ++ gen_output_a ++ nl ++
  "        ************" ++ nl ++
  "        [Response B]: " ++ gen_output_b ++ nl ++
  "        ************" ++ nl ++
  "        [END DATA]" ++ nl ++
  nl ++
  "        Determine which of the responses is a better response to the user's" ++ nl ++
  "        query. Consider factors such as helpfulness, correctness, and relevance" ++ nl ++
  "        in your assessment, using the provided Ideal Response as a reference. Do" ++ nl ++
  "        not allow the order in which the responses were presented to influence" ++ nl ++
  "        your assessment. Do not allow the length of the responses to influence" ++ nl ++
  "        your assessment. The available assessments are:" ++ nl ++
  "        `Response A` - Response A is a better response." ++ nl ++
  "        `Response B` - Response B is a better response." ++ nl ++
  "        `Tie` - The two responses are roughly equal in quality." ++ nl ++
  nl ++
  "        Take a deep breath and work on this problem step-by-step." ++ nl ++
  "        ".

Definition _prompt_with_sources
  (gen_output_a gen_output_b user_query source_1 : string)
  (source_2 : option string) : string :=
  (* If two sources are provided, combine them into a single string.
     Otherwise, just use the single source. *)
  let sources :=
    match source_2 with
    | Some source_2 => source_1 ++ nl ++ source_2
    | None => source_1
    end in
  nl ++
  "        You are comparing the quality of two responses to a user's query. Source" ++ nl ++
  "        text that is supposedly relevant to the user's query is also provided" ++ nl ++
  "        to you as a reference (the source text may contain some duplication)." ++ nl ++
  "        Here is the data:" ++ nl ++
  "        [BEGIN DATA]" ++ nl ++
  "        ************" ++ nl ++
  "        [User Query]: " ++ user_query ++ nl ++
  "        ************" ++ nl ++
  "        [Source]: " ++ sources ++ nl ++
  "        ************" ++ nl ++
  "        [Response A]: " ++ gen_output_a ++ nl ++
  "        ************" ++ nl ++
  "        [Response B]: " ++ gen_output_b ++ nl ++
  "        ************" ++ nl ++
  "        [END DATA]" ++ nl ++
  nl ++
  "        Determine which of the responses is a better response to the user's" ++ nl ++
  "        query. Consider factors such as helpfulness, correctness, and relevance" ++ nl ++
  "        in your assessment, using the provided Source as a reference. Do not" ++ nl ++
  "        allow the order in which the responses were presented to influence your" ++ nl ++
  "        assessment. Do not allow the length of the responses to influence your" ++ nl ++
  "        assessment. The available assessments are:" ++ nl ++
  "        `Response A` - Response A is a better response." ++ nl ++
  "        `Response B` - Response B is a better response." ++ nl ++
  "        `Tie` - The two responses are roughly equal in quality." ++ nl ++
  nl ++
  "        Take a deep breath and work on this problem step-by-step." ++ nl ++
  "        ".

Definition _function_call_prompt (long_assessment : string) : string :=
  nl ++
  "        The following is an assessment on whether Response A or Response B is" ++ nl ++
  "        the better response to the user's query:" ++ nl ++
  "        ************" ++ nl ++
  "        [Assessment]: " ++ long_assessment ++ nl ++
  "        ************" ++ nl ++
  nl ++
  "        Save the resulting assessment. The available assessments are:" ++ nl ++
  "        `Response A`" ++ nl ++
  "        `Response B`" ++ nl ++
  "        `Tie`" ++ nl ++
  "        ".

Arguments _prompt : simpl never.
Arguments _prompt_with_reference : simpl never.
Arguments _prompt_with_sources : simpl never.
Arguments _function_call_prompt : simpl never.

(** [prompt_fn] is bound to one of the three local functions and applied
    to the unpacked [data_instance]. *)
Inductive prompt_fn : Type :=
| Fn_prompt
| Fn_prompt_with_reference
| Fn_prompt_with_sources.

Definition call (f : prompt_fn) (data_instance : list string)
  : result string :=
  match f, data_instance with
  | Fn_prompt, [a; b; q] => Ok (_prompt a b q)
  | Fn_prompt_with_reference, [a; b; q; r] =>
      Ok (_prompt_with_reference a b q r)
  | Fn_prompt_with_sources, [a; b; q; s1] =>
      Ok (_prompt_with_sources a b q s1 None)
  | Fn_prompt_with_sources, [a; b; q; s1; s2] =>
      Ok (_prompt_with_sources a b q s1 (Some s2))
  | _, _ => Raise (TypeError "positional arguments")
  end.

Definition pairwise_comparison_assessment_to_score : dict R :=
  [("Response B", 1.0%R); ("Tie", 0.5%R); ("Response A", 0.0%R)].

(** The handle of an [OpenAI] client object. *)
Inductive OpenAI : Type := OpenAIClient (id : nat).

(** The fields that the constructor call of [OpenAIBasedEvaluator] sets. *)
Record OpenAIBasedEvaluator : Type := {
  assessment_to_score_mapping : dict R;
  function_name : string;
  function_description : string;
  argument_name : string;
  argument_description : string;
  client_type : string;
  client : option OpenAI;
  openai_args : option (dict string)
}.

(** Lines 143-151: the evaluator that [pairwise_comparison] constructs. *)
Definition oai_evaluator (model_type : string)
  (openai_client : option OpenAI) (openai_args : option (dict string))
  : OpenAIBasedEvaluator :=
  {| assessment_to_score_mapping := pairwise_comparison_assessment_to_score;
     function_name := "save_pairwise_comparison_assessment";
     function_description := "Saves a pairwise comparison assessment.";
     argument_name := "pairwise_comparison";
     argument_description := "The pairwise comparison assessment";
     client_type := model_type;
     client := openai_client;
     openai_args := openai_args |}.

(** What [print] is called with. *)
Inductive printed : Type :=
| Floats (l : list R)
| Strings (l : list string).

(** What the function hands back to its caller.  The source returns [None];
    [PyResults] is the value the specification speaks of. *)
Inductive pyval : Type :=
| PyNone
| PyResults (l : list (R * string)).

(** The state that [pairwise_comparison] acts on: the world behind the
    evaluator, the judgment prompts handed to [get_score] so far (a ghost
    record of the call sites), the progress bars opened and the standard
    output. *)
Record state (W : Type) : Type := {
  world : W;
  judged : list string;
  bars : list (string * nat);
  stdout : list printed
}.
Arguments world {W} s.
Arguments judged {W} s.
Arguments bars {W} s.
Arguments stdout {W} s.

Definition unsupported_model_type : string :=
  "Unsupported model type. The supported ones are ["
  ++ dq ++ "openai" ++ dq ++ ", " ++ dq ++ "azure_openai" ++ dq ++ "]".

Section Orchestrator.

Context {W : Type}.

(** [OpenAIBasedEvaluator.get_score] of langcheck/metrics/en/_openai.py, as
    far as the orchestrator depends on it: it acts on the world only and
    yields a score and an explanation, or raises. *)
Variable get_score :
  OpenAIBasedEvaluator -> string -> (string -> string) -> M W (R * string).

Definition evaluate (ev : OpenAIBasedEvaluator) (prompt : string)
  : M (state W) (R * string) :=
  fun st =>
    let '(r, w) := get_score ev prompt _function_call_prompt (world st) in
    (r, {| world := w; judged := (judged st ++ [prompt])%list;
           bars := bars st; stdout := stdout st |}).

(** Modelled from the spec: [tqdm_wrapper] (langcheck/utils/progess_bar.py)
    is not part of the sources; it yields the items of its iterable
    unchanged and lets an observer learn the fraction completed out of
    [total]. *)
Definition tqdm_wrapper (data_iter : list (list string)) (desc : string)
  (total : nat) : M (state W) (list (list string)) :=
  fun st =>
    (Ok data_iter,
     {| world := world st; judged := judged st;
        bars := (bars st ++ [(desc, total)])%list; stdout := stdout st |}).

Definition print (x : printed) : M (state W) unit :=
  modify (fun st =>
    {| world := world st; judged := judged st;
       bars := bars st; stdout := (stdout st ++ [x])%list |}).

(** Lines 155-174: the prompt function and the zipped data.  The two
    [assert ... is not None] of the source stand in the branches where they
    are; only the first can be written so that it could fail. *)
Definition select
  (generated_outputs_a generated_outputs_b prompts : strs)
  (sources_a sources_b reference_outputs : option (list string))
  : result (prompt_fn * list (list string)) :=
  let a := iter generated_outputs_a in
  let b := iter generated_outputs_b in
  let p := iter prompts in
  if is_not_None sources_a || is_not_None sources_b then
    match sources_a with
    | None =>
        match sources_b with
        | None => Raise (AssertionError EmptyString)
        | Some sources_b =>
            Ok (Fn_prompt_with_sources, zip [a; b; p; sources_b])
        end
    | Some sources_a =>
        match sources_b with
        | None => Ok (Fn_prompt_with_sources, zip [a; b; p; sources_a])
        | Some sources_b =>
            Ok (Fn_prompt_with_sources, zip [a; b; p; sources_a; sources_b])
        end
    end
  else
    match reference_outputs with
    | Some reference_outputs =>
        Ok (Fn_prompt_with_reference, zip [a; b; p; reference_outputs])
    | None => Ok (Fn_prompt, zip [a; b; p])
    end.

(** Lines 176-182: the loop, with its two accumulators. *)
Fixpoint loop (oai_evaluator : OpenAIBasedEvaluator) (f : prompt_fn)
  (data : list (list string))
  (score_list : list R) (explanation_list : list string)
  : M (state W) (list R * list string) :=
  match data with
  | [] => ret (score_list, explanation_list)
  | data_instance :: rest =>
      prompt <- lift (call f data_instance) ;;
      '(score, explanation) <- evaluate oai_evaluator prompt ;;
      loop oai_evaluator f rest
           (score_list ++ [score])%list
           (explanation_list ++ [explanation])%list
  end.

Definition pairwise_comparison
  (generated_outputs_a generated_outputs_b prompts : strs)
  (sources_a sources_b reference_outputs : option (list string))
  (model_type : string) (openai_client : option OpenAI)
  (openai_args : option (dict string)) : M (state W) pyval :=
  assert_ (str_in model_type ["openai"; "azure_openai"])
          unsupported_model_type ;;;
  let oai_evaluator := oai_evaluator model_type openai_client openai_args in
  '(f, data_iter) <-
     lift (select generated_outputs_a generated_outputs_b prompts
                  sources_a sources_b reference_outputs) ;;
  data <- tqdm_wrapper data_iter "Calculating scores" (len prompts) ;;
  '(score_list, explanation_list) <- loop oai_evaluator f data [] [] ;;
  print (Floats score_list) ;;;
  print (Strings explanation_list) ;;;
  ret PyNone.

End Orchestrator.

(** *** The judge client *)

Section JudgeClient.

(** The remote judge: its answer to the [n]-th call made to it, given the
    request. *)
Variable judge : nat -> Request -> Response.

(** Modelled from the spec: the fixed default model identity that the
    evaluator uses when no invocation parameters are given; the constant
    is in langcheck/metrics/en/_openai.py, which is not part of the
    sources. *)
Variable default_model : string.

(** Modelled from the spec: the request that the judge client sends (one
    message with the judgment prompt, one callable whose single argument is
    restricted to the labels of the score mapping, the instruction to call
    it, and the invocation parameters forwarded verbatim).  It is built by
    [OpenAIBasedEvaluator.get_score] in langcheck/metrics/en/_openai.py,
    which is not part of the sources. *)
Definition request_of (ev : OpenAIBasedEvaluator) (prompt : string)
  (function_call_prompt_template : string -> string) : Request :=
  {| messages := [{| role := "user"; content := prompt |}];
     functions :=
       [{| name := function_name ev;
           description := function_description ev;
           parameter := argument_name ev;
           parameter_enum := keys (assessment_to_score_mapping ev);
           parameter_description := argument_description ev |}];
     function_call := function_name ev;
     options :=
       match openai_args ev with
       | None => [("model", default_model)]
       | Some args => args
       end;
     extraction := Some function_call_prompt_template |}.

(** Modelled from the spec: decoding a response into a verdict and scoring
    it (JudgeClient and AssessmentScorer): a failed call is a
    [TransportError], a missing or undecodable structured argument is a
    [MalformedJudgeResponse], a label outside the mapping is an
    [UnrecognizedAssessment]; otherwise the score of the label and the
    judge's free text.  Part of [OpenAIBasedEvaluator.get_score], which is
    not part of the sources. *)
Definition verdict (ev : OpenAIBasedEvaluator) (r : Response)
  : result (R * string) :=
  match r with
  | ApiFailure => Raise TransportError
  | Choice _ NoFunctionCall => Raise MalformedJudgeResponse
  | Choice _ Undecodable => Raise MalformedJudgeResponse
  | Choice text (Arguments obj) =>
      match dict_get obj (argument_name ev) with
      | None => Raise MalformedJudgeResponse
      | Some label =>
          match dict_get (assessment_to_score_mapping ev) label with
          | None => Raise UnrecognizedAssessment
          | Some score => Ok (score, text)
          end
      end
  end.

(** Modelled from the spec: [OpenAIBasedEvaluator.get_score]
    (langcheck/metrics/en/_openai.py, not part of the sources): exactly one
    remote call, then the verdict.  The world is the list of requests sent
    so far. *)
Definition get_score (ev : OpenAIBasedEvaluator) (prompt : string)
  (function_call_prompt_template : string -> string)
  : M (list Request) (R * string) :=
  let request := request_of ev prompt function_call_prompt_template in
  sent <- gets (@List.length Request) ;;
  modify (fun w => (w ++ [request])%list) ;;;
  lift (verdict ev (judge sent request)).

(** [pairwise_comparison] with this judge client behind it. *)
Definition pairwise_comparison_judged :=
  pairwise_comparison get_score.

(** The judge's answers to the requests for the prompts [ps], the first of
    them being call number [n]. *)
Fixpoint replies (ev : OpenAIBasedEvaluator) (n : nat) (ps : list string)
  : list Response :=
  match ps with
  | [] => []
  | p :: ps' =>
      judge n (request_of ev p _function_call_prompt)
      :: replies ev (S n) ps'
  end.

(** What a batch of judgment prompts comes to, the first request being
    call number [n]: the verdicts in order, or the first exception, and the
    number of calls made. *)
Fixpoint outcome (ev : OpenAIBasedEvaluator) (n : nat) (ps : list string)
  : result (list (R * string)) * nat :=
  match ps with
  | [] => (Ok [], 0)
  | p :: ps' =>
      match verdict ev (judge n (request_of ev p _function_call_prompt)) with
      | Raise e => (Raise e, 1)
      | Ok v =>
          let '(r, m) := outcome ev (S n) ps' in
          (match r with
           | Ok vs => Ok (v :: vs)
           | Raise e => Raise e
           end, S m)
      end
  end.

End JudgeClient.

(** *** The selection policy in the words of the specification

    "If any source sequence is supplied, use WithSource for every item,
    pairing whichever of the source sequences are non-null; else if a
    reference sequence is supplied, use WithReference for every item; else
    use Plain." *)

Definition policy_variant
  (sources_a sources_b reference_outputs : option (list string))
  : prompt_fn :=
  if is_not_None sources_a || is_not_None sources_b then
    Fn_prompt_with_sources
  else if is_not_None reference_outputs then Fn_prompt_with_reference
  else Fn_prompt.

Definition policy_context
  (sources_a sources_b reference_outputs : option (list string))
  : list (list string) :=
  match sources_a, sources_b, reference_outputs with
  | Some sa, Some sb, _ => [sa; sb]
  | Some sa, None, _ => [sa]
  | None, Some sb, _ => [sb]
  | None, None, Some r => [r]
  | None, None, None => []
  end.

(** A prompt is an instance of the template of a prompt function. *)
Definition uses (f : prompt_fn) (prompt : string) : Prop :=
  match f with
  | Fn_prompt => exists a b q, prompt = _prompt a b q
  | Fn_prompt_with_reference =>
      exists a b q r, prompt = _prompt_with_reference a b q r
  | Fn_prompt_with_sources =>
      exists a b q s1 s2, prompt = _prompt_with_sources a b q s1 s2
  end.

(** The length of the shortest of some sequences. *)
Fixpoint shortest (seqs : list (list string)) : nat :=
  match seqs with
  | [] => 0
  | [xs] => List.length xs
  | xs :: rest => Nat.min (List.length xs) (shortest rest)
  end.

(** *** Mock judges and inputs for the examples *)

(** A judge that always answers with the same text and label. *)
Definition judge_always (text label : string) : nat -> Request -> Response :=
  fun _ _ => Choice text (Arguments [("pairwise_comparison", label)]).

(** A judge that answers [label] until call [k], where it answers [bad]. *)
Definition judge_until (k : nat) (label bad : string)
  : nat -> Request -> Response :=
  fun n _ =>
    Choice "because"
      (Arguments
         [("pairwise_comparison", if Nat.eqb n k then bad else label)]).

Definition initial {W} (w : W) : state W :=
  {| world := w; judged := []; bars := []; stdout := [] |}.

(** The example of the specification: one item, no reference and no
    source, and a judge that always answers [Response A]. *)
Definition example_text : string := "Response A answers the query.".

Definition example_run : result pyval * state (list Request) :=
  pairwise_comparison_judged (judge_always example_text "Response A")
    "gpt-3.5-turbo"
    (StrList ["The sky is blue."]) (StrList ["I hate you."])
    (StrList ["Describe something."]) None None None
    "openai" None None (initial []).

(** An evaluator that needs no world and scores everything 0.5. *)
Definition get_score_const
  : OpenAIBasedEvaluator -> string -> (string -> string)
    -> M unit (R * string) :=
  fun _ _ _ => ret (0.5%R, "fine").

End Pairwise.

(** ** reference_free_text_quality.py *)

Module Sentiment.

Definition _sentiment_model_path : string :=
  "cardiffnlp/twitter-roberta-base-sentiment-latest".

(** The fields that [sentiment] passes to the constructor of [EvalValue]. *)
Record EvalValue : Type := {
  metric_name : string;
  prompts : option (list string);
  generated_outputs : list string;
  reference_outputs : option (list string);
  sources : option (list string);
  metric_values : list R;
  language : string
}.

(** One row of the classifier's output: the columns [0], [1] and [2], which
    are negative, neutral and positive. *)
Record row : Type := {
  negative : R;
  neutral : R;
  positive : R
}.

(** [torch.nn.functional.softmax(..., dim=1)] on one row. *)
Definition softmax (x : row) : row :=
  let total := (exp (negative x) + exp (neutral x) + exp (positive x))%R in
  {| negative := (exp (negative x) / total)%R;
     neutral := (exp (neutral x) / total)%R;
     positive := (exp (positive x) / total)%R |}.

(** The module globals and the requests sent to the remote API so far. *)
Record state : Type := {
  requests : list Request;
  _sentiment_tokenizer : option string;
  _sentiment_model : option string
}.

Definition unsupported_model_type : string :=
  "Unsupported model type. The supported ones are ["
  ++ dq ++ "local" ++ dq ++ ", " ++ dq ++ "openai" ++ dq ++ "]".

Definition unrecognized_sentiment : string :=
  "OpenAI returned an unrecognized sentiment assessment :(".

Definition _prompt (gen_output : string) : string :=
  nl ++
  "        You are evaluating the sentiment of a submitted statement. Here is the" ++ nl ++
  "        data:" ++ nl ++
  "        [BEGIN DATA]" ++ nl ++
  "        ************" ++ nl ++
  "        [Submission]: " ++ gen_output ++ nl ++
  "        ************" ++ nl ++
  "        [END DATA]" ++ nl ++
  nl ++
  "        Determine the predominant sentiment of the submitted statement. The" ++ nl ++
  "        available assessments are:" ++ nl ++
  "        `Positive` - The submitted statement has a predominantly positive" ++ nl ++
  "        sentiment" ++ nl ++
  "        `Negative` - The submitted statement has a predominantly negative" ++ nl ++
  "        sentiment" ++ nl ++
  "        `Neutral` - The submitted statement has neither a positive nor negative" ++ nl ++
  "        sentiment" ++ nl ++
  "        ".

Definition eq_str (x : option string) (s : string) : bool :=
  match x with
  | Some x => String.eqb x s
  | None => false
  end.

(** The argument is what [function_args.get] yields: a string or [None]. *)
Definition _sentiment_assessment_to_score (assessment : option string)
  : result R :=
  if eq_str assessment "Positive" then Ok 1.0%R
  else if eq_str assessment "Neutral" then Ok 0.5%R
  else if eq_str assessment "Negative" then Ok 0.0%R
  else
    (* By leveraging the function calling API, this should be pretty
       rare, but we're dealing with LLMs here so nothing is absolute! *)
    Raise (AssertionError unrecognized_sentiment).

Section Collaborators.

(** The tokenizer and the classifier, loaded from [_sentiment_model_path]
    and applied to a batch: one row of logits per input. *)
Variable classifier : list string -> list row.

(** [openai.ChatCompletion.create]: its answer to the [n]-th call. *)
Variable create : nat -> Request -> Response.

Definition _sentiment_local (generated_outputs : list string)
  : M state (list R) :=
  tokenizer <- gets _sentiment_tokenizer ;;
  model <- gets _sentiment_model ;;
  (if is_None tokenizer || is_None model then
     modify (fun st =>
       {| requests := requests st;
          _sentiment_tokenizer := Some _sentiment_model_path;
          _sentiment_model := Some _sentiment_model_path |})
   else ret tt) ;;;
  (* Probabilities of [negative, neutral, positive] *)
  let probs := map softmax (classifier generated_outputs) in
  ret (map (fun p => (neutral p / 2 + positive p)%R) probs).

Definition ChatCompletion_create (request : Request)
  : M state (string * FunctionCall) :=
  fun st =>
    let st' :=
      {| requests := (requests st ++ [request])%list;
         _sentiment_tokenizer := _sentiment_tokenizer st;
         _sentiment_model := _sentiment_model st |} in
    match create (List.length (requests st)) request with
    | ApiFailure => (Raise APIError, st')
    | Choice text call => (Ok (text, call), st')
    end.

(** The body of the loop of [_sentiment_openai], lines 154-190. *)
Definition assess (gen : string) (openai_args : option (dict string))
  : M state R :=
  let messages := [{| role := "user"; content := _prompt gen |}] in
  let functions :=
    [{| name := "save_sentiment_assessment";
        description := "Save's a statement's sentiment assessment.";
        parameter := "sentiment";
        parameter_enum := ["Positive"; "Negative"; "Neutral"];
        parameter_description :=
          "The sentiment assessment of the statement" |}] in
  '(_, call) <-
    match openai_args with
    | None =>
        ChatCompletion_create
          {| messages := messages;
             functions := functions;
             function_call := "save_sentiment_assessment";
             options := [("model", "gpt-3.5-turbo")];
             extraction := None |}
    | Some openai_args =>
        match duplicate_keyword openai_args with
        | Some k => raise (TypeError k)
        | None =>
            ChatCompletion_create
              {| messages := messages;
                 functions := functions;
                 function_call := "save_sentiment_assessment";
                 options := openai_args;
                 extraction := None |}
        end
    end ;;
  function_args <-
    match call with
    | NoFunctionCall => raise (KeyError "function_call")
    | Undecodable => raise JSONDecodeError
    | Arguments obj => ret obj
    end ;;
  let sentiment_assessment := dict_get function_args "sentiment" in
  lift (_sentiment_assessment_to_score sentiment_assessment).

Fixpoint _sentiment_openai_loop (generated_outputs : list string)
  (openai_args : option (dict string)) (score_list : list R)
  : M state (list R) :=
  match generated_outputs with
  | [] => ret score_list
  | gen :: rest =>
      score <- assess gen openai_args ;;
      _sentiment_openai_loop rest openai_args (score_list ++ [score])%list
  end.

Definition _sentiment_openai (generated_outputs : list string)
  (openai_args : option (dict string)) : M state (list R) :=
  _sentiment_openai_loop generated_outputs openai_args [].

Definition sentiment (generated_outputs : list string)
  (prompts : option (list string)) (model_type : string)
  (openai_args : option (dict string)) : M state EvalValue :=
  assert_ (str_in model_type ["local"; "openai"]) unsupported_model_type ;;;
  scores <-
    (if String.eqb model_type "local" then
       _sentiment_local generated_outputs
     else (* openai *)
       _sentiment_openai generated_outputs openai_args) ;;
  ret {| metric_name := "sentiment";
         prompts := prompts;
         generated_outputs := generated_outputs;
         reference_outputs := None;
         sources := None;
         metric_values := scores;
         language := "en" |}.

End Collaborators.

(** *** Helpers for stating properties *)

(** The keyword arguments that [assess] passes for one generated output,
    when [openai_args] repeats none of the fixed keywords. *)
Definition request_for (gen : string) (openai_args : option (dict string))
  : Request :=
  {| messages := [{| role := "user"; content := _prompt gen |}];
     functions :=
       [{| name := "save_sentiment_assessment";
           description := "Save's a statement's sentiment assessment.";
           parameter := "sentiment";
           parameter_enum := ["Positive"; "Negative"; "Neutral"];
           parameter_description :=
             "The sentiment assessment of the statement" |}];
     function_call := "save_sentiment_assessment";
     options :=
       match openai_args with
       | None => [("model", "gpt-3.5-turbo")]
       | Some openai_args => openai_args
       end;
     extraction := None |}.

(** What [assess] makes of a response. *)
Definition decode (r : Response) : result R :=
  match r with
  | ApiFailure => Raise APIError
  | Choice _ NoFunctionCall => Raise (KeyError "function_call")
  | Choice _ Undecodable => Raise JSONDecodeError
  | Choice _ (Arguments obj) =>
      _sentiment_assessment_to_score (dict_get obj "sentiment")
  end.

(** The labels of the sentiment schema, as the prompt and the function
    schema list them. *)
Definition sentiment_labels : list string :=
  ["Positive"; "Negative"; "Neutral"].

Definition no_duplicate_keyword (openai_args : option (dict string)) : bool :=
  match openai_args with
  | None => true
  | Some d => is_None (duplicate_keyword d)
  end.

(** A remote API that always answers with the same label. *)
Definition create_always (label : string) : nat -> Request -> Response :=
  fun _ _ => Choice "ok" (Arguments [("sentiment", label)]).

(** A remote API that answers [label] until call [k], where it answers
    [bad]. *)
Definition create_until (k : nat) (label bad : string)
  : nat -> Request -> Response :=
  fun n _ =>
    Choice "ok" (Arguments [("sentiment", if Nat.eqb n k then bad else label)]).

(** The state after one more request. *)
Definition sent (st : state) (q : Request) : state :=
  {| requests := (requests st ++ [q])%list;
     _sentiment_tokenizer := _sentiment_tokenizer st;
     _sentiment_model := _sentiment_model st |}.

Definition fresh : state :=
  {| requests := []; _sentiment_tokenizer := None; _sentiment_model := None |}.

End Sentiment.

(** ** reference_free_text_quality.py: the other metrics *)

Module Fluency.


(** One row of the logits of the fluency classifier, a sequence
    classification model with at least the two columns [0] and [1]. *)
Record row : Type := {
  column0 : R;
  column1 : R;
  columns : list R
}.

Definition sum (l : list R) : R := fold_right Rplus 0%R l.

(** [torch.nn.functional.softmax(..., dim=1)] on one row. *)
Definition softmax (x : row) : row :=
  let total :=
    (exp (column0 x) + exp (column1 x) + sum (map exp (columns x)))%R in
  {| column0 := (exp (column0 x) / total)%R;
     column1 := (exp (column1 x) / total)%R;
     columns := map (fun v => (exp v / total)%R) (columns x) |}.

(** The module globals of the fluency metric. *)
Record state : Type := {
  _fluency_tokenizer : option string;
  _fluency_model : option string
}.

Section Collaborators.

(** The tokenizer and the classifier, loaded from [_fluency_model_path] and
    applied to a batch: one row of logits per input. *)
Variable classifier : list string -> list row.


End Collaborators.

End Fluency.

Module Readability.

(** The fields of the result of [compute_stats] that the two readability
    metrics read. *)
Record TextStats : Type := {
  num_sentences : nat;
  num_words : nat;
  num_syllables : nat
}.

(** A value, or the [ZeroDivisionError] of a division. *)
Inductive arith (A : Type) : Type :=
| Value (a : A)
| ZeroDivisionError.
Arguments Value {A} a.
Arguments ZeroDivisionError {A}.

(** [a / b] on two [int]s. *)
Definition true_div (a b : nat) : arith R :=
  if Nat.eqb b 0 then ZeroDivisionError else Value (INR a / INR b)%R.

(** A list comprehension whose element expression may raise. *)
Fixpoint comprehension {A B} (f : A -> arith B) (l : list A)
  : arith (list B) :=
  match l with
  | [] => Value []
  | x :: l' =>
      match f x with
      | ZeroDivisionError => ZeroDivisionError
      | Value y =>
          match comprehension f l' with
          | ZeroDivisionError => ZeroDivisionError
          | Value ys => Value (y :: ys)
          end
      end
  end.

(** The element expression of [flesch_reading_ease], lines 294-297. *)
Definition reading_ease (stat : TextStats) : arith R :=
  match true_div (num_words stat) (num_sentences stat) with
  | ZeroDivisionError => ZeroDivisionError
  | Value words_per_sentence =>
      match true_div (num_syllables stat) (num_words stat) with
      | ZeroDivisionError => ZeroDivisionError
      | Value syllables_per_word =>
          Value (206.835 - 1.015 * words_per_sentence
                 - 84.6 * syllables_per_word)%R
      end
  end.

(** The element expression of [flesch_kincaid_grade], lines 330-333. *)
Definition kincaid_grade (stat : TextStats) : arith R :=
  match true_div (num_words stat) (num_sentences stat) with
  | ZeroDivisionError => ZeroDivisionError
  | Value words_per_sentence =>
      match true_div (num_syllables stat) (num_words stat) with
      | ZeroDivisionError => ZeroDivisionError
      | Value syllables_per_word =>
          Value (0.39 * words_per_sentence
                 + 11.8 * syllables_per_word - 15.59)%R
      end
  end.

Section Stats.

(** [langcheck.stats.compute_stats], which counts the sentences, words and
    syllables of a text. *)
Variable compute_stats : string -> TextStats.

Definition flesch_reading_ease (generated_outputs : list string)
  (prompts : option (list string)) : arith Sentiment.EvalValue :=
  let output_stats := map compute_stats generated_outputs in
  match comprehension reading_ease output_stats with
  | ZeroDivisionError => ZeroDivisionError
  | Value scores =>
      Value {| Sentiment.metric_name := "flesch_reading_ease";
               Sentiment.prompts := prompts;
               Sentiment.generated_outputs := generated_outputs;
               Sentiment.reference_outputs := None;
               Sentiment.sources := None;
               Sentiment.metric_values := scores;
               Sentiment.language := "en" |}
  end.

Definition flesch_kincaid_grade (generated_outputs : list string)
  (prompts : option (list string)) : arith Sentiment.EvalValue :=
  let output_stats := map compute_stats generated_outputs in
  match comprehension kincaid_grade output_stats with
  | ZeroDivisionError => ZeroDivisionError
  | Value scores =>
      Value {| Sentiment.metric_name := "flesch_kincaid_grade";
               Sentiment.prompts := prompts;
               Sentiment.generated_outputs := generated_outputs;
               Sentiment.reference_outputs := None;
               Sentiment.sources := None;
               Sentiment.metric_values := scores;
               Sentiment.language := "en" |}
  end.

End Stats.

(** A text is countable when it has a sentence and a word. *)
Definition countable (stat : TextStats) : bool :=
  negb (Nat.eqb (num_sentences stat) 0) && negb (Nat.eqb (num_words stat) 0).

(** The two scores of a text that has a sentence and a word. *)
Definition ease_of (t : TextStats) : R :=
  (206.835 - 1.015 * (INR (num_words t) / INR (num_sentences t))
   - 84.6 * (INR (num_syllables t) / INR (num_words t)))%R.

Definition grade_of (t : TextStats) : R :=
  (0.39 * (INR (num_words t) / INR (num_sentences t))
   + 11.8 * (INR (num_syllables t) / INR (num_words t)) - 15.59)%R.



End Readability.

(** ** Further helpers for stating properties *)

Module Helpers.

(** [s[i]] on a [str], as a one-character [str]; empty out of range. *)
Definition char_at (s : string) (i : nat) : string :=
  match String.get i s with
  | Some c => String c EmptyString
  | None => EmptyString
  end.


(** The answers of the remote API to the requests of [_sentiment_openai]
    for the outputs [gens], the first of them being call number [n]. *)
Fixpoint answers (create : nat -> Request -> Response)
  (args : option (dict string)) (n : nat) (gens : list string)
  : list Response :=
  match gens with
  | [] => []
  | gen :: rest =>
      create n (Sentiment.request_for gen args)
      :: answers create args (S n) rest
  end.

(** The answers that [_sentiment_openai] cannot score, with the exception
    that each leads to. *)
Inductive fails_with : Response -> exn -> Prop :=
| fails_api : fails_with ApiFailure APIError
| fails_no_call (text : string) :
    fails_with (Choice text NoFunctionCall) (KeyError "function_call")
| fails_json (text : string) :
    fails_with (Choice text Undecodable) JSONDecodeError
| fails_label (text : string) (obj : dict string) :
    (forall l, dict_get obj "sentiment" = Some l ->
               ~ In l Sentiment.sentiment_labels) ->
    fails_with (Choice text (Arguments obj))
               (AssertionError Sentiment.unrecognized_sentiment).

(** What a batch of answers comes to in [_sentiment_openai]: the scores in
    order, or the first exception, and the number of answers read. *)
Fixpoint tally (l : list Response) : result (list R) * nat :=
  match l with
  | [] => (Ok [], 0)
  | a :: l' =>
      match Sentiment.decode a with
      | Raise e => (Raise e, 1)
      | Ok s =>
          let '(r, m) := tally l' in
          (match r with
           | Ok v => Ok (s :: v)
           | Raise e => Raise e
           end, S m)
      end
  end.

(** A remote API that fails from call [k] on. *)
Definition create_down_from (k : nat) : nat -> Request -> Response :=
  fun n _ =>
    if Nat.ltb n k then Choice "ok" (Arguments [("sentiment", "Neutral")])
    else ApiFailure.

End Helpers.

(** * Supporting facts *)

(** ** Strings, dictionaries and [zip] *)

Module PyFacts.

Lemma append_assoc (s1 s2 s3 : string) :
  (s1 ++ s2) ++ s3 = s1 ++ s2 ++ s3.
Proof.
  induction s1 as [|c s1 IH]; simpl; [reflexivity|].
  now rewrite IH.
Qed.

Lemma append_length (s1 s2 : string) :
  String.length (s1 ++ s2) = String.length s1 + String.length s2.
Proof.
  induction s1 as [|c s1 IH]; simpl; [reflexivity|].
  now rewrite IH.
Qed.

Lemma chars_length (s : string) : List.length (chars s) = String.length s.
Proof.
  induction s as [|c s IH]; simpl; [reflexivity|].
  now rewrite IH.
Qed.

Lemma len_iter (x : strs) : len x = List.length (iter x).
Proof. destruct x; simpl; [reflexivity | now rewrite chars_length]. Qed.

Lemma str_in_In (x : string) (l : list string) :
  str_in x l = true <-> In x l.
Proof.
  unfold str_in. rewrite existsb_exists. split.
  - intros [y [Hy Heq]]. apply String.eqb_eq in Heq. now subst.
  - intros H. exists x. split; [assumption | apply String.eqb_refl].
Qed.

Lemma str_in_not_In (x : string) (l : list string) :
  ~ In x l -> str_in x l = false.
Proof.
  intros H. destruct (str_in x l) eqn:E; [|reflexivity].
  apply str_in_In in E. contradiction.
Qed.

Lemma zip_cons_length (xs : list string) (ts : list (list string)) :
  List.length (zip_cons xs ts) = Nat.min (List.length xs) (List.length ts).
Proof.
  revert ts. induction xs as [|x xs IH]; intros [|t ts]; simpl; auto.
Qed.

Lemma zip_step (xs ys : list string) (rest : list (list string)) :
  zip (xs :: ys :: rest) = zip_cons xs (zip (ys :: rest)).
Proof. reflexivity. Qed.

Lemma zip_cons_arity (n : nat) (xs : list string) (ts : list (list string)) :
  Forall (fun t => List.length t = n) ts ->
  Forall (fun t => List.length t = S n) (zip_cons xs ts).
Proof.
  revert ts. induction xs as [|x xs IH]; intros [|t ts] H; simpl;
    try constructor.
  - inversion H; subst. reflexivity.
  - inversion H; subst. now apply IH.
Qed.

(** Every tuple of [zip] has one component per sequence. *)
Lemma zip_arity (seqs : list (list string)) :
  Forall (fun t => List.length t = List.length seqs) (zip seqs).
Proof.
  induction seqs as [|xs rest IH]; [constructor|].
  destruct rest as [|ys rest].
  - simpl. apply Forall_forall. intros t Ht. apply in_map_iff in Ht.
    destruct Ht as [x [<- _]]. reflexivity.
  - rewrite zip_step. now apply zip_cons_arity.
Qed.

Lemma zip_cons_nth (xs : list string) (ts : list (list string)) (i : nat) :
  i < List.length xs -> i < List.length ts ->
  nth i (zip_cons xs ts) [] = nth i xs EmptyString :: nth i ts [].
Proof.
  revert ts i. induction xs as [|x xs IH]; intros [|t ts] [|i] Hx Ht;
    simpl in *; try lia; [reflexivity|].
  apply IH; lia.
Qed.

Lemma dict_get_In {V} (d : dict V) (k : string) :
  In k (keys d) -> exists v, dict_get d k = Some v.
Proof.
  induction d as [|[k' v] d IH]; simpl; [contradiction|].
  intros [->|Hin].
  - rewrite String.eqb_refl. eauto.
  - destruct (String.eqb k k'); eauto.
Qed.

Lemma dict_get_not_In {V} (d : dict V) (k : string) :
  ~ In k (keys d) -> dict_get d k = None.
Proof.
  induction d as [|[k' v] d IH]; simpl; [reflexivity|].
  intros Hnot. destruct (String.eqb_spec k k') as [->|_].
  - exfalso. apply Hnot. now left.
  - apply IH. intros Hin. apply Hnot. now right.
Qed.

End PyFacts.

Import PyFacts.

(** ** Facts about pairwise_text_quality.py *)

Module PairwiseFacts.

Import Pairwise.

(** [zip] stops with the shortest sequence. *)
Lemma zip_length (seqs : list (list string)) :
  List.length (zip seqs) = shortest seqs.
Proof.
  induction seqs as [|xs rest IH]; [reflexivity|].
  destruct rest as [|ys rest].
  - simpl. apply length_map.
  - rewrite zip_step, zip_cons_length, IH. reflexivity.
Qed.

Lemma shortest_le (seqs : list (list string)) (xs : list string) :
  In xs seqs -> shortest seqs <= List.length xs.
Proof.
  induction seqs as [|ys rest IH]; [contradiction|].
  intros [->|Hin].
  - destruct rest; simpl; lia.
  - specialize (IH Hin). destruct rest as [|zs rest]; [contradiction|].
    change (shortest (ys :: zs :: rest))
      with (Nat.min (List.length ys) (shortest (zs :: rest))).
    lia.
Qed.

(** The i-th tuple holds the i-th element of every sequence. *)
Lemma zip_nth (seqs : list (list string)) (i : nat) :
  i < shortest seqs ->
  nth i (zip seqs) [] = map (fun xs => nth i xs EmptyString) seqs.
Proof.
  induction seqs as [|xs rest IH]; [simpl; lia|].
  destruct rest as [|ys rest].
  - simpl. intros Hi.
    rewrite (nth_indep _ [] [EmptyString]) by now rewrite length_map.
    apply (map_nth (fun x : string => [x])).
  - intros Hi.
    change (shortest (xs :: ys :: rest))
      with (Nat.min (List.length xs) (shortest (ys :: rest))) in Hi.
    rewrite zip_step, zip_cons_nth.
    + rewrite IH by lia. reflexivity.
    + lia.
    + rewrite zip_length. lia.
Qed.

(** The source's selection of a prompt function and of the zipped data is
    the policy of the specification. *)
Lemma select_policy (ga gb p : strs) (sa sb ref : option (list string)) :
  select ga gb p sa sb ref =
  Ok (policy_variant sa sb ref,
      zip ([iter ga; iter gb; iter p] ++ policy_context sa sb ref)%list).
Proof. destruct sa, sb, ref; reflexivity. Qed.

(** An argument given as a plain [str] is zipped character by
    character, and the zip stops with the shortest argument. *)
Example select_characters :
  select (Str "ab") (Str "cde") (StrList ["q1"; "q2"; "q3"])
         None (Some ["s"; "t"]) (Some ["r"])
  = Ok (Fn_prompt_with_sources,
        [["a"; "c"; "q1"; "s"]; ["b"; "d"; "q2"; "t"]]).
Proof. reflexivity. Qed.

(** The selected function accepts every selected tuple. *)
Lemma call_selected (xs ys zs : list string)
  (sa sb ref : option (list string)) (d : list string) :
  In d (zip ([xs; ys; zs] ++ policy_context sa sb ref)%list) ->
  exists prompt,
    call (policy_variant sa sb ref) d = Ok prompt
    /\ uses (policy_variant sa sb ref) prompt.
Proof.
  intros Hin.
  pose proof (zip_arity ([xs; ys; zs] ++ policy_context sa sb ref)%list)
    as Har.
  rewrite Forall_forall in Har. specialize (Har d Hin).
  destruct sa, sb, ref; simpl in Har;
    repeat (destruct d as [|? d]; try discriminate Har);
    simpl; eexists; (split; [reflexivity|]); simpl; eauto 8.
Qed.

(** A prompt function only ever yields instances of its own template. *)
Lemma call_uses (f : prompt_fn) (d : list string) (q : string) :
  call f d = Ok q -> uses f q.
Proof.
  destruct f; destruct d as [|a [|b [|u [|x [|y [|z d]]]]]];
    cbn [call]; intros H; try discriminate H;
    injection H as <-; cbn [uses]; eauto 8.
Qed.

Lemma Forall2_call_uses (f : prompt_fn) (data : list (list string))
  (ps : list string) :
  Forall2 (fun d q => call f d = Ok q) data ps -> Forall (uses f) ps.
Proof.
  induction 1; constructor; [eapply call_uses; eassumption | assumption].
Qed.

Lemma shortest_aligned (N : nat) (seqs : list (list string)) :
  seqs <> [] ->
  Forall (fun xs => List.length xs = N) seqs ->
  shortest seqs = N.
Proof.
  induction seqs as [|xs rest IH]; [congruence|].
  intros _ H. inversion H as [|? ? Hxs Hrest]; subst.
  destruct rest as [|ys rest]; [reflexivity|].
  change (shortest (xs :: ys :: rest))
    with (Nat.min (List.length xs) (shortest (ys :: rest))).
  rewrite IH by (congruence || assumption). apply Nat.min_id.
Qed.

(** A recognised label is scored by the mapping and keeps the judge's
    text. *)
Lemma verdict_label (ev : OpenAIBasedEvaluator) (r : Response)
  (l : string) :
  label_of (argument_name ev) r = Some l ->
  verdict ev r
  = match dict_get (assessment_to_score_mapping ev) l with
    | Some score => Ok (score, text_of r)
    | None => Raise UnrecognizedAssessment
    end.
Proof.
  destruct r as [|text [| |obj]]; simpl; try discriminate.
  intros ->. reflexivity.
Qed.

Lemma replies_length (judge : nat -> Request -> Response) (dm : string)
  (ev : OpenAIBasedEvaluator) (ps : list string) :
  forall n, List.length (replies judge dm ev n ps) = List.length ps.
Proof. induction ps as [|q ps IH]; intros n; simpl; auto. Qed.

Lemma map_const_repeat {A B} (b : B) (l : list A) :
  map (fun _ => b) l = repeat b (List.length l).
Proof. induction l as [|x l IH]; simpl; [reflexivity | now rewrite IH]. Qed.

Section Generic.

Context {W : Type}.
Variable get_score :
  OpenAIBasedEvaluator -> string -> (string -> string) -> M W (R * string).

(** The loop neither prints nor opens a progress bar, and hands to
    [get_score] the prompts of a prefix of the data, in order: all of the
    data when it returns. *)
Lemma loop_frame (ev : OpenAIBasedEvaluator) (f : prompt_fn)
  (data : list (list string)) :
  forall sl el st r st',
    loop get_score ev f data sl el st = (r, st') ->
    bars st' = bars st /\ stdout st' = stdout st
    /\ exists ps,
         judged st' = (judged st ++ ps)%list
         /\ Forall2 (fun d p => call f d = Ok p)
                    (firstn (List.length ps) data) ps
         /\ (forall v, r = Ok v ->
               List.length ps = List.length data
               /\ List.length (fst v) = List.length sl + List.length data
               /\ List.length (snd v) = List.length el + List.length data).
Proof.
  induction data as [|d rest IH]; intros sl el st r st' Hrun.
  - inversion Hrun; subst. split; [reflexivity|]. split; [reflexivity|].
    exists []. rewrite app_nil_r. split; [reflexivity|].
    split; [constructor|]. intros v Hv. inversion Hv; subst. simpl. lia.
  - simpl in Hrun. unfold bind at 1, lift at 1 in Hrun.
    destruct (call f d) as [prompt|e] eqn:Hcall.
    + unfold bind at 1, evaluate at 1 in Hrun.
      destruct (get_score ev prompt _function_call_prompt (world st))
        as [[[score expl]|e] w] eqn:Hgs.
      * apply IH in Hrun. simpl in Hrun.
        destruct Hrun as [Hb [Ho [ps [Hj [Hf Hlen]]]]].
        split; [assumption|]. split; [assumption|].
        exists (prompt :: ps). rewrite Hj, <- app_assoc.
        split; [reflexivity|]. split; [simpl; constructor; assumption|].
        intros v Hv. destruct (Hlen v Hv) as [H1 [H2 H3]].
        rewrite length_app in H2, H3. simpl in *. lia.
      * inversion Hrun; subst. simpl.
        split; [reflexivity|]. split; [reflexivity|].
        exists [prompt]. split; [reflexivity|].
        split; [simpl; constructor; [assumption | constructor]|].
        intros v Hv. discriminate Hv.
    + inversion Hrun; subst. split; [reflexivity|]. split; [reflexivity|].
      exists []. rewrite app_nil_r. split; [reflexivity|].
      split; [constructor|]. intros v Hv. discriminate Hv.
Qed.

(** With an evaluator that never raises, the loop completes on any data
    that the prompt function accepts. *)
Lemma loop_total (ev : OpenAIBasedEvaluator) (f : prompt_fn)
  (data : list (list string)) :
  (forall ev p t w, exists v w', get_score ev p t w = (Ok v, w')) ->
  Forall (fun d => exists p, call f d = Ok p) data ->
  forall sl el st, exists v st',
    loop get_score ev f data sl el st = (Ok v, st').
Proof.
  intros Hgs. induction data as [|d rest IH]; intros Hcall sl el st.
  - simpl. eexists _, _. reflexivity.
  - inversion Hcall as [|? ? [prompt Hp] Hrest]; subst.
    simpl. unfold bind at 1, lift at 1. rewrite Hp.
    unfold bind at 1, evaluate at 1.
    destruct (Hgs ev prompt _function_call_prompt (world st))
      as [[score expl] [w' Hw]].
    rewrite Hw. apply IH. assumption.
Qed.

(** What a run does to the state, whatever its outcome: at most one
    progress bar, and judgment prompts of the selected template only. *)
Lemma pairwise_comparison_frame (ga gb p : strs)
  (sa sb ref : option (list string)) (mt : string) (cl : option OpenAI)
  (args : option (dict string)) (st : state W) :
  forall r st',
    pairwise_comparison get_score ga gb p sa sb ref mt cl args st = (r, st') ->
    exists ps,
      judged st' = (judged st ++ ps)%list
      /\ Forall2 (fun d q => call (policy_variant sa sb ref) d = Ok q)
           (firstn (List.length ps)
              (zip ([iter ga; iter gb; iter p]
                    ++ policy_context sa sb ref)%list)) ps.
Proof.
  intros r st'. unfold pairwise_comparison.
  unfold bind at 1, assert_.
  destruct (str_in mt ["openai"; "azure_openai"]).
  - unfold ret at 1. unfold bind at 1, lift at 1.
    rewrite select_policy.
    unfold bind at 1, tqdm_wrapper at 1. unfold bind at 1.
    match goal with
    | |- context [loop ?g ?e ?f ?d ?a ?b ?s] =>
        destruct (loop g e f d a b s) as [[[sl el]|e0] st1] eqn:Hloop
    end; apply loop_frame in Hloop; simpl in Hloop;
      destruct Hloop as [_ [_ [ps [Hj [Hf _]]]]].
    + unfold bind, print, modify, ret. intros H. inversion H; subst.
      simpl. exists ps. split; assumption.
    + intros H. inversion H; subst. exists ps. split; assumption.
  - unfold raise. intros H. inversion H; subst.
    exists []. rewrite app_nil_r. split; [reflexivity | constructor].
Qed.

End Generic.

(** The selected prompt function renders every selected tuple. *)
Lemma rendered_exists (xs ys zs : list string)
  (sa sb ref : option (list string)) :
  exists ps,
    Forall2 (fun d q => call (policy_variant sa sb ref) d = Ok q)
      (zip ([xs; ys; zs] ++ policy_context sa sb ref)%list) ps
    /\ Forall (uses (policy_variant sa sb ref)) ps.
Proof.
  pose proof (call_selected xs ys zs sa sb ref) as Hsel.
  induction (zip ([xs; ys; zs] ++ policy_context sa sb ref)%list)
    as [|d data IH].
  - exists []. split; constructor.
  - destruct (Hsel d (or_introl eq_refl)) as [q [Hq Hu]].
    destruct IH as [ps [Hps Hus]].
    + intros d' Hd'. apply Hsel. now right.
    + exists (q :: ps). split; constructor; assumption.
Qed.

Lemma Forall2_call_length (f : prompt_fn) (data : list (list string))
  (ps : list string) :
  Forall2 (fun d q => call f d = Ok q) data ps ->
  List.length ps = List.length data.
Proof. intros H. symmetry. exact (Forall2_length H). Qed.

Lemma Forall2_call_unique (f : prompt_fn) (data : list (list string)) :
  forall ps qs,
    Forall2 (fun d q => call f d = Ok q) data ps ->
    Forall2 (fun d q => call f d = Ok q) data qs ->
    ps = qs.
Proof.
  induction data as [|d data IH]; intros ps qs Hp Hq;
    inversion Hp; inversion Hq; subst; [reflexivity|].
  f_equal; [congruence | now apply IH].
Qed.

Section Judged.

Variable judge : nat -> Request -> Response.
Variable default_model : string.

Local Abbreviation request ev p :=
  (request_of default_model ev p _function_call_prompt).

Lemma get_score_run (ev : OpenAIBasedEvaluator) (p : string)
  (w : list Request) :
  get_score judge default_model ev p _function_call_prompt w
  = (verdict ev (judge (List.length w) (request ev p)),
     (w ++ [request ev p])%list).
Proof. reflexivity. Qed.

(** The loop over this judge client is [outcome]. *)
Lemma loop_outcome (ev : OpenAIBasedEvaluator) (f : prompt_fn)
  (data : list (list string)) (ps : list string) :
  Forall2 (fun d q => call f d = Ok q) data ps ->
  forall sl el st,
    loop (get_score judge default_model) ev f data sl el st
    = let '(r, m) :=
        outcome judge default_model ev (List.length (world st)) ps in
      (match r with
       | Ok vs => Ok ((sl ++ map fst vs)%list, (el ++ map snd vs)%list)
       | Raise e => Raise e
       end,
       {| world := (world st ++ map (fun q => request ev q) (firstn m ps))%list;
          judged := (judged st ++ firstn m ps)%list;
          bars := bars st;
          stdout := stdout st |}).
Proof.
  induction 1 as [|d q data ps Hq Hrest IH]; intros sl el st.
  - simpl. unfold ret. rewrite !app_nil_r. destruct st; reflexivity.
  - simpl. unfold bind at 1, lift at 1. rewrite Hq.
    unfold bind at 1, evaluate at 1. rewrite get_score_run.
    destruct (verdict ev (judge (List.length (world st)) (request ev q)))
      as [[score expl]|e] eqn:Hv.
    + rewrite IH. simpl world. rewrite length_app. simpl List.length.
      rewrite Nat.add_1_r.
      destruct (outcome judge default_model ev (S (List.length (world st))) ps)
        as [[vs|e] m]; simpl; rewrite <- !app_assoc; reflexivity.
    + reflexivity.
Qed.

Lemma outcome_Ok (ev : OpenAIBasedEvaluator) (ps : list string) :
  forall n vs m,
    outcome judge default_model ev n ps = (Ok vs, m) ->
    m = List.length ps
    /\ Forall2 (fun r v => verdict ev r = Ok v)
               (replies judge default_model ev n ps) vs.
Proof.
  induction ps as [|q ps IH]; intros n vs m H; simpl in H.
  - inversion H; subst. split; [reflexivity | constructor].
  - destruct (verdict ev (judge n (request ev q))) as [v|e] eqn:Hv;
      [|discriminate H].
    destruct (outcome judge default_model ev (S n) ps) as [[vs'|e] m'] eqn:Ho;
      inversion H; subst.
    destruct (IH _ _ _ Ho) as [Hm Hf]. subst.
    split; [reflexivity|]. simpl. constructor; assumption.
Qed.

(** When every answer decodes through [g], the batch yields [g] of the
    answers. *)
Lemma outcome_all (ev : OpenAIBasedEvaluator) (g : Response -> R * string)
  (ps : list string) :
  (forall n req, verdict ev (judge n req) = Ok (g (judge n req))) ->
  forall n,
    outcome judge default_model ev n ps
    = (Ok (map g (replies judge default_model ev n ps)), List.length ps).
Proof.
  intros Hg. induction ps as [|q ps IH]; intros n; simpl; [reflexivity|].
  rewrite Hg, IH. reflexivity.
Qed.

(** When the first [k] answers decode and answer [k] raises [e], the batch
    raises [e] after [k + 1] calls. *)
Lemma outcome_fails_at (ev : OpenAIBasedEvaluator) (e : exn) :
  forall k ps n,
    k < List.length ps ->
    (forall i req, i < k -> exists v, verdict ev (judge (n + i) req) = Ok v) ->
    (forall req, verdict ev (judge (n + k) req) = Raise e) ->
    outcome judge default_model ev n ps = (Raise e, S k).
Proof.
  induction k as [|k IH]; intros [|q ps] n Hk Hbefore Hat;
    simpl in Hk; try lia; simpl.
  - rewrite Nat.add_0_r in Hat. rewrite Hat. reflexivity.
  - destruct (Hbefore 0 (request ev q)) as [v Hv]; [lia|].
    rewrite Nat.add_0_r in Hv. rewrite Hv.
    rewrite (IH ps (S n)); [reflexivity | lia | | ].
    + intros i req Hi. replace (S n + i) with (n + S i) by lia.
      apply Hbefore. lia.
    + intros req. replace (S n + k) with (n + S k) by lia. apply Hat.
Qed.

(** A run of [pairwise_comparison] over this judge client, for a supported
    model type. *)
Lemma run_judged (ga gb p : strs) (sa sb ref : option (list string))
  (mt : string) (cl : option OpenAI) (args : option (dict string))
  (ps : list string) (st : state (list Request)) :
  str_in mt ["openai"; "azure_openai"] = true ->
  Forall2 (fun d q => call (policy_variant sa sb ref) d = Ok q)
    (zip ([iter ga; iter gb; iter p] ++ policy_context sa sb ref)%list) ps ->
  pairwise_comparison_judged judge default_model
    ga gb p sa sb ref mt cl args st
  = let ev := oai_evaluator mt cl args in
    let '(r, m) :=
      outcome judge default_model ev (List.length (world st)) ps in
    let w := (world st ++ map (fun q => request ev q) (firstn m ps))%list in
    let j := (judged st ++ firstn m ps)%list in
    let b := (bars st ++ [("Calculating scores", len p)])%list in
    match r with
    | Ok vs =>
        (Ok PyNone,
         {| world := w; judged := j; bars := b;
            stdout :=
              (stdout st ++ [Floats (map fst vs); Strings (map snd vs)])%list
         |})
    | Raise e =>
        (Raise e, {| world := w; judged := j; bars := b; stdout := stdout st |})
    end.
Proof.
  intros Hmt Hps.
  unfold pairwise_comparison_judged, pairwise_comparison.
  unfold bind at 1, assert_. rewrite Hmt. unfold ret at 1.
  unfold bind at 1, lift at 1. rewrite select_policy.
  unfold bind at 1, tqdm_wrapper at 1. unfold bind at 1.
  rewrite (loop_outcome _ _ _ ps Hps). simpl world. simpl judged.
  simpl bars. simpl stdout.
  destruct (outcome judge default_model (oai_evaluator mt cl args)
              (List.length (world st)) ps) as [[vs|e] m].
  - unfold bind, print, modify, ret. simpl. rewrite <- app_assoc.
    reflexivity.
  - reflexivity.
Qed.

End Judged.

End PairwiseFacts.

(** ** Facts about reference_free_text_quality.py *)

Module SentimentFacts.

Import Sentiment.

Open Scope R_scope.

Lemma softmax_total_pos (x : row) :
  0 < exp (negative x) + exp (neutral x) + exp (positive x).
Proof.
  pose proof (exp_pos (negative x)). pose proof (exp_pos (neutral x)).
  pose proof (exp_pos (positive x)). lra.
Qed.

(** The columns of a softmax row sum to one. *)
Lemma softmax_sum (x : row) :
  negative (softmax x) + neutral (softmax x) + positive (softmax x) = 1.
Proof.
  pose proof (softmax_total_pos x). unfold softmax. simpl. field. lra.
Qed.

Lemma softmax_nonneg (x : row) :
  0 <= negative (softmax x) /\ 0 <= neutral (softmax x)
  /\ 0 <= positive (softmax x).
Proof.
  pose proof (softmax_total_pos x) as Ht.
  pose proof (exp_pos (negative x)). pose proof (exp_pos (neutral x)).
  pose proof (exp_pos (positive x)).
  unfold softmax. simpl.
  repeat split; apply Rlt_le; apply Rdiv_lt_0_compat; assumption.
Qed.

Lemma softmax_score_bounds (x : row) :
  0 <= neutral (softmax x) / 2 + positive (softmax x) <= 1.
Proof.
  pose proof (softmax_sum x). pose proof (softmax_nonneg x). lra.
Qed.

Close Scope R_scope.

Section Collaborators.

Variable classifier : list string -> list row.
Variable create : nat -> Request -> Response.

(** The local path never fails; it loads the model when a global is unset
    and leaves the request log alone. *)
Lemma sentiment_local_run (gens : list string) (st : state) :
  _sentiment_local classifier gens st
  = (Ok (map (fun p => (neutral p / 2 + positive p)%R)
             (map softmax (classifier gens))),
     if is_None (_sentiment_tokenizer st) || is_None (_sentiment_model st)
     then {| requests := requests st;
             _sentiment_tokenizer := Some _sentiment_model_path;
             _sentiment_model := Some _sentiment_model_path |}
     else st).
Proof.
  unfold _sentiment_local, bind, gets, modify, ret.
  destruct (is_None (_sentiment_tokenizer st) || is_None (_sentiment_model st));
    reflexivity.
Qed.

(** One iteration: one request, then the decoding of its answer. *)
Lemma assess_run (gen : string) (args : option (dict string)) (st : state) :
  no_duplicate_keyword args = true ->
  assess create gen args st
  = (decode (create (List.length (requests st)) (request_for gen args)),
     sent st (request_for gen args)).
Proof.
  intros Hdup. unfold assess, request_for.
  destruct args as [d|]; simpl in Hdup.
  - destruct (duplicate_keyword d); [discriminate Hdup|].
    unfold bind at 1, ChatCompletion_create.
    match goal with
    | |- context [create ?n ?q] => destruct (create n q) as [|text [| |obj]]
    end; reflexivity.
  - unfold bind at 1, ChatCompletion_create.
    match goal with
    | |- context [create ?n ?q] => destruct (create n q) as [|text [| |obj]]
    end; reflexivity.
Qed.

(** A repeated fixed keyword stops the call before anything is sent. *)
Lemma assess_duplicate (gen : string) (d : dict string) (k : string)
  (st : state) :
  duplicate_keyword d = Some k ->
  assess create gen (Some d) st = (Raise (TypeError k), st).
Proof. intros Hdup. unfold assess. rewrite Hdup. reflexivity. Qed.

(** The requests of a batch all carry the same options: the default model,
    or [openai_args] as given. *)
Lemma loop_requests (args : option (dict string)) (gens : list string) :
  forall sl st r st',
    _sentiment_openai_loop create gens args sl st = (r, st') ->
    _sentiment_tokenizer st' = _sentiment_tokenizer st
    /\ _sentiment_model st' = _sentiment_model st
    /\ exists new,
         requests st' = (requests st ++ new)%list
         /\ Forall (fun q =>
                      options q = match args with
                                  | None => [("model", "gpt-3.5-turbo")]
                                  | Some d => d
                                  end) new
         /\ (no_duplicate_keyword args = true -> gens <> [] -> new <> []).
Proof.
  induction gens as [|gen rest IH]; intros sl st r st' Hrun.
  - inversion Hrun; subst. split; [reflexivity|]. split; [reflexivity|].
    exists []. rewrite app_nil_r. split; [reflexivity|].
    split; [constructor|]. intros _ H. now contradiction H.
  - simpl in Hrun. unfold bind at 1 in Hrun.
    destruct (no_duplicate_keyword args) eqn:Hdup.
    + rewrite (assess_run gen args st Hdup) in Hrun.
      destruct (decode _) as [score|e].
      * apply IH in Hrun. destruct Hrun as [Ht [Hm [new [Hreq [Hall _]]]]].
        split; [assumption|]. split; [assumption|].
        exists (request_for gen args :: new).
        rewrite Hreq. simpl. rewrite <- app_assoc.
        split; [reflexivity|].
        split; [constructor; [reflexivity | assumption]|].
        intros _ _. discriminate.
      * inversion Hrun; subst.
        split; [reflexivity|]. split; [reflexivity|].
        exists [request_for gen args]. split; [reflexivity|].
        split; [constructor; [reflexivity | constructor]|].
        intros _ _. discriminate.
    + destruct args as [d|]; [|discriminate Hdup]. simpl in Hdup.
      destruct (duplicate_keyword d) as [k|] eqn:Hk; [|discriminate Hdup].
      rewrite (assess_duplicate gen d k st Hk) in Hrun.
      inversion Hrun; subst.
      split; [reflexivity|]. split; [reflexivity|].
      exists []. rewrite app_nil_r. split; [reflexivity|].
      split; [constructor|]. intros H. discriminate H.
Qed.

(** When the first [k] answers decode and answer [k] raises [e], the loop
    raises [e] after [k + 1] requests. *)
Lemma loop_fails_at (args : option (dict string)) (e : exn) :
  no_duplicate_keyword args = true ->
  forall k gens sl st,
    k < List.length gens ->
    (forall i req, i < k ->
       exists s, decode (create (List.length (requests st) + i) req) = Ok s) ->
    (forall req,
       decode (create (List.length (requests st) + k) req) = Raise e) ->
    exists st',
      _sentiment_openai_loop create gens args sl st = (Raise e, st')
      /\ List.length (requests st') = List.length (requests st) + S k.
Proof.
  intros Hdup.
  induction k as [|k IH]; intros [|gen rest] sl st Hk Hbefore Hat;
    simpl in Hk; try lia; simpl; unfold bind at 1;
    rewrite (assess_run gen args st Hdup).
  - rewrite Nat.add_0_r in Hat. rewrite Hat.
    eexists. split; [reflexivity|]. simpl. rewrite length_app. simpl. lia.
  - destruct (Hbefore 0 (request_for gen args)) as [s Hs]; [lia|].
    rewrite Nat.add_0_r in Hs. rewrite Hs.
    destruct (IH rest (sl ++ [s])%list (sent st (request_for gen args)))
      as [st' [Hrun Hlen]].
    + lia.
    + intros i req Hi. simpl. rewrite length_app. simpl.
      replace (List.length (requests st) + 1 + i)
        with (List.length (requests st) + S i) by lia.
      apply Hbefore. lia.
    + intros req. simpl. rewrite length_app. simpl.
      replace (List.length (requests st) + 1 + k)
        with (List.length (requests st) + S k) by lia.
      apply Hat.
    + exists st'. split; [exact Hrun|].
      rewrite Hlen. simpl. rewrite length_app. simpl. lia.
Qed.

(** A label of the schema has a score; any other label is refused. *)
Lemma decode_label (r : Response) (l : string) :
  label_of "sentiment" r = Some l ->
  (In l sentiment_labels -> exists s, decode r = Ok s)
  /\ (~ In l sentiment_labels ->
      decode r = Raise (AssertionError unrecognized_sentiment)).
Proof.
  destruct r as [|text [| |obj]]; simpl; try discriminate.
  intros Hl. rewrite Hl. unfold _sentiment_assessment_to_score, eq_str.
  split.
  - intros [<-|[<-|[<-|[]]]]; simpl; eauto.
  - intros Hnot.
    destruct (String.eqb_spec l "Positive") as [->|_];
      [exfalso; apply Hnot; simpl; auto|].
    destruct (String.eqb_spec l "Neutral") as [->|_];
      [exfalso; apply Hnot; simpl; auto|].
    destruct (String.eqb_spec l "Negative") as [->|_];
      [exfalso; apply Hnot; simpl; auto|].
    reflexivity.
Qed.

End Collaborators.

(** [sentiment] over the remote path hands on what [_sentiment_openai]
    yields. *)
Lemma sentiment_openai_run
  (classifier : list string -> list row)
  (create : nat -> Request -> Response)
  (gens : list string) (prompts : option (list string))
  (args : option (dict string)) (st : state) :
  sentiment classifier create gens prompts "openai" args st
  = match _sentiment_openai create gens args st with
    | (Ok scores, st') =>
        (Ok {| metric_name := "sentiment";
               prompts := prompts;
               generated_outputs := gens;
               reference_outputs := None;
               sources := None;
               metric_values := scores;
               language := "en" |}, st')
    | (Raise e, st') => (Raise e, st')
    end.
Proof.
  unfold sentiment, bind, assert_, ret.
  change (str_in "openai" ["local"; "openai"]) with true.
  change (String.eqb "openai" "local") with false. cbv beta iota.
  destruct (_sentiment_openai create gens args st) as [[scores|e] st'];
    reflexivity.
Qed.

End SentimentFacts.

(** * Properties of the specification *)

Module PairwiseSpec.

Import Pairwise PairwiseFacts.

(** C1.  The pairwise score mapping has exactly the three keys
    [Response B], [Tie] and [Response A], each once; it maps [Response A]
    to 0.0, [Tie] to 0.5 and [Response B] to 1.0, and no other label has a
    score in it; all its values lie between 0 and 1. *)
Theorem C1_pairwise_mapping :
  keys pairwise_comparison_assessment_to_score
  = ["Response B"; "Tie"; "Response A"]
  /\ NoDup (keys pairwise_comparison_assessment_to_score)
  /\ (forall label,
       dict_get pairwise_comparison_assessment_to_score label
       = if String.eqb label "Response A" then Some 0.0%R
         else if String.eqb label "Tie" then Some 0.5%R
         else if String.eqb label "Response B" then Some 1.0%R
         else None)
  /\ Forall (fun kv => (0 <= snd kv <= 1)%R)
       pairwise_comparison_assessment_to_score.
Proof.
  split; [reflexivity|]. split; [|split].
  - simpl. repeat constructor; simpl; intuition discriminate.
  - intros label. simpl.
    destruct (String.eqb_spec label "Response B") as [->|_];
      [reflexivity|].
    destruct (String.eqb_spec label "Tie") as [->|_]; [reflexivity|].
    destruct (String.eqb label "Response A"); reflexivity.
  - repeat constructor; simpl; lra.
Qed.

(** C6.  In the source-grounded judgment prompt the sources stand in one
    place, after the tag [[Source]: ] and up to the end of the line: with
    two sources, [source_1], one line break, then [source_2], whatever the
    two strings are (so equal sources appear twice); with one source,
    [source_1] alone.  The rest of the prompt does not depend on the
    sources, and the second source adds its own length and one character. *)
Theorem C6_sources_embedded (a b q : string) :
  exists pre post,
    (forall s1 s2,
       _prompt_with_sources a b q s1 (Some s2)
       = pre ++ "[Source]: " ++ s1 ++ nl ++ s2 ++ nl ++ post)
    /\ (forall s1,
       _prompt_with_sources a b q s1 None
       = pre ++ "[Source]: " ++ s1 ++ nl ++ post)
    /\ (forall s1 s2,
       String.length (_prompt_with_sources a b q s1 (Some s2))
       = String.length (_prompt_with_sources a b q s1 None)
         + 1 + String.length s2).
Proof.
  assert (Hshape : exists pre post, forall src,
             _prompt_with_sources a b q src None
             = pre ++ "[Source]: " ++ src ++ nl ++ post).
  { eexists ?[pre], ?[post]. intros src.
    unfold _prompt_with_sources. cbv beta iota zeta.
    repeat match goal with
    | |- ?x ++ (?y ++ ?z) = _ =>
        lazymatch y with
        | "        [Source]: " => fail
        | _ => rewrite <- (append_assoc x y z)
        end
    end.
    change "        [Source]: " with ("        " ++ "[Source]: ").
    match goal with
    | |- ?x ++ ((?y ++ ?t) ++ ?z) = _ =>
        rewrite (append_assoc y t z), <- (append_assoc x y (t ++ z))
    end.
    reflexivity. }
  destruct Hshape as [pre [post Hshape]].
  assert (Hsome : forall s1 s2,
             _prompt_with_sources a b q s1 (Some s2)
             = _prompt_with_sources a b q (s1 ++ nl ++ s2) None)
    by reflexivity.
  exists pre, post. split; [|split].
  - intros s1 s2. rewrite Hsome, Hshape, !append_assoc. reflexivity.
  - intros s1. apply Hshape.
  - intros s1 s2. rewrite Hsome, !Hshape, !append_length. simpl. lia.
Qed.

(** C3.  The prompt function is chosen once per batch, and the choice is
    the policy "sources, else reference, else plain": [select] yields the
    function of the policy together with the zip of the outputs, the
    prompts and the context sequences of the policy (both source sequences,
    or the one supplied, else the references, else nothing).  Every tuple
    of the batch is rendered by that one function, and whatever a run of
    [pairwise_comparison] hands to the evaluator is, in order, the prompt
    of that function for a tuple of the batch. *)
Theorem C3_variant_selection {W : Type}
  (get_score :
     OpenAIBasedEvaluator -> string -> (string -> string) -> M W (R * string))
  (ga gb p : strs) (sa sb ref : option (list string))
  (mt : string) (cl : option OpenAI) (args : option (dict string))
  (st : state W) :
  let f := policy_variant sa sb ref in
  let data :=
    zip ([iter ga; iter gb; iter p] ++ policy_context sa sb ref)%list in
  select ga gb p sa sb ref = Ok (f, data)
  /\ Forall (fun d => exists q, call f d = Ok q /\ uses f q) data
  /\ exists ps,
       judged (snd (pairwise_comparison get_score
                      ga gb p sa sb ref mt cl args st))
       = (judged st ++ ps)%list
       /\ Forall (uses f) ps
       /\ Forall2 (fun d q => call f d = Ok q)
            (firstn (List.length ps) data) ps.
Proof.
  intros f data. split; [apply select_policy|]. split.
  - apply Forall_forall. intros d Hd. now apply call_selected in Hd.
  - destruct (pairwise_comparison get_score ga gb p sa sb ref mt cl args st)
      as [r st'] eqn:Hrun.
    apply pairwise_comparison_frame in Hrun.
    destruct Hrun as [ps [Hj Hf]]. exists ps. simpl.
    split; [assumption|]. split; [|assumption].
    eapply Forall2_call_uses. eassumption.
Qed.

(** C10.  Sequences of unequal lengths raise no error of their own: with
    a supported model type and an evaluator that does not raise, the run
    completes and returns [None], having handed to the evaluator exactly
    as many prompts as the shortest of the zipped sequences has elements
    (so no more than any of them has), while the progress bar was opened
    with the length of [prompts] as its total. *)
Theorem C10_zip_truncation {W : Type}
  (get_score :
     OpenAIBasedEvaluator -> string -> (string -> string) -> M W (R * string))
  (ga gb p : strs) (sa sb ref : option (list string))
  (mt : string) (cl : option OpenAI) (args : option (dict string))
  (st : state W) :
  In mt ["openai"; "azure_openai"] ->
  (forall ev q t w, exists v w', get_score ev q t w = (Ok v, w')) ->
  exists st' ps,
    pairwise_comparison get_score ga gb p sa sb ref mt cl args st
    = (Ok PyNone, st')
    /\ judged st' = (judged st ++ ps)%list
    /\ List.length ps
       = shortest ([iter ga; iter gb; iter p] ++ policy_context sa sb ref)%list
    /\ Forall (fun xs => List.length ps <= List.length xs)
         ([iter ga; iter gb; iter p] ++ policy_context sa sb ref)%list
    /\ bars st' = (bars st ++ [("Calculating scores", len p)])%list.
Proof.
  intros Hmt Hgs. apply str_in_In in Hmt.
  unfold pairwise_comparison. unfold bind at 1, assert_. rewrite Hmt.
  unfold ret at 1. unfold bind at 1, lift at 1. rewrite select_policy.
  unfold bind at 1, tqdm_wrapper at 1. unfold bind at 1.
  set (data := zip ([iter ga; iter gb; iter p]
                    ++ policy_context sa sb ref)%list).
  set (st1 := {| world := world st; judged := judged st;
                 bars := (bars st ++ [("Calculating scores", len p)])%list;
                 stdout := stdout st |}).
  destruct (loop_total get_score (oai_evaluator mt cl args)
              (policy_variant sa sb ref) data Hgs) with (sl := @nil R)
    (el := @nil string) (st := st1) as [[sl el] [st2 Hloop]].
  { apply Forall_forall. intros d Hd. apply call_selected in Hd.
    destruct Hd as [q [Hq _]]. now exists q. }
  rewrite Hloop.
  apply loop_frame in Hloop.
  destruct Hloop as [Hb [Ho [ps [Hj [_ Hlen]]]]].
  destruct (Hlen _ eq_refl) as [Hps _].
  unfold bind, print, modify, ret. eexists _, ps. split; [reflexivity|].
  simpl. split; [exact Hj|].
  assert (Hshort : List.length ps
                   = shortest ([iter ga; iter gb; iter p]
                               ++ policy_context sa sb ref)%list)
    by (rewrite Hps; apply zip_length).
  split; [exact Hshort|]. split; [|exact Hb].
  apply Forall_forall. intros xs Hxs. rewrite Hshort.
  now apply shortest_le.
Qed.

(** Three outputs A against two outputs B: two prompts are judged, and the
    progress bar counts to three. *)
Lemma C10_zip_truncation_witness :
  In "openai" ["openai"; "azure_openai"]
  /\ (forall (ev : OpenAIBasedEvaluator) (q : string) (t : string -> string)
        (w : unit),
        exists v w', get_score_const ev q t w = (Ok v, w'))
  /\ exists st' ps,
       pairwise_comparison get_score_const
         (StrList ["a1"; "a2"; "a3"]) (StrList ["b1"; "b2"])
         (StrList ["q1"; "q2"; "q3"]) None None None
         "openai" None None (initial tt)
       = (Ok PyNone, st')
       /\ judged st' = ps
       /\ List.length ps = 2
       /\ Forall (fun xs => List.length ps <= List.length xs)
            [["a1"; "a2"; "a3"]; ["b1"; "b2"]; ["q1"; "q2"; "q3"]]
       /\ bars st' = [("Calculating scores", 3)].
Proof.
  split; [simpl; auto|]. split.
  - intros ev q t w. eexists _, _. reflexivity.
  - apply (C10_zip_truncation get_score_const
             (StrList ["a1"; "a2"; "a3"]) (StrList ["b1"; "b2"])
             (StrList ["q1"; "q2"; "q3"]) None None None
             "openai" None None (initial tt)).
    + simpl; auto.
    + intros ev q t w. eexists _, _. reflexivity.
Defined.

(** C5.  When all the zipped sequences have N elements and the judge
    answers [Tie] to every call, a run over a supported model type prints
    N scores, each 0.5, and N explanations: the i-th explanation is the free
    text of the judge's answer to the i-th call, whose prompt renders the
    i-th tuple, which holds the i-th element of every input sequence. *)
Theorem C5_all_tie (judge : nat -> Request -> Response) (dm : string)
  (ga gb p : strs) (sa sb ref : option (list string))
  (mt : string) (cl : option OpenAI) (args : option (dict string))
  (st : state (list Request)) (N : nat) :
  let seqs := ([iter ga; iter gb; iter p] ++ policy_context sa sb ref)%list in
  In mt ["openai"; "azure_openai"] ->
  (forall n req, label_of "pairwise_comparison" (judge n req) = Some "Tie") ->
  Forall (fun xs => List.length xs = N) seqs ->
  exists st' ps,
    pairwise_comparison_judged judge dm ga gb p sa sb ref mt cl args st
    = (Ok PyNone, st')
    /\ List.length ps = N
    /\ Forall2 (fun d q => call (policy_variant sa sb ref) d = Ok q)
         (zip seqs) ps
    /\ (forall i, i < N ->
          nth i (zip seqs) [] = map (fun xs => nth i xs EmptyString) seqs)
    /\ stdout st'
       = (stdout st
          ++ [Floats (repeat 0.5%R N);
              Strings (map text_of
                         (replies judge dm (oai_evaluator mt cl args)
                            (List.length (world st)) ps))])%list.
Proof.
  intros seqs Hmt Htie Hlen. apply str_in_In in Hmt.
  assert (HN : shortest seqs = N)
    by (apply shortest_aligned; [discriminate | assumption]).
  destruct (rendered_exists (iter ga) (iter gb) (iter p) sa sb ref)
    as [ps [Hps _]]. fold seqs in Hps.
  assert (Hpsl : List.length ps = N).
  { rewrite (Forall2_call_length _ _ _ Hps), zip_length. exact HN. }
  rewrite (run_judged judge dm ga gb p sa sb ref mt cl args ps st Hmt Hps).
  cbv zeta.
  rewrite (outcome_all judge dm (oai_evaluator mt cl args)
             (fun r => (0.5%R, text_of r))).
  - eexists _, ps. split; [reflexivity|]. split; [assumption|].
    split; [assumption|]. split.
    + intros i Hi. apply zip_nth. lia.
    + simpl stdout. rewrite !map_map. simpl.
      rewrite map_const_repeat, replies_length, Hpsl. reflexivity.
  - intros n req.
    rewrite (verdict_label (oai_evaluator mt cl args) _ "Tie" (Htie n req)).
    reflexivity.
Qed.

(** Two aligned items and a judge that always answers [Tie]. *)
Lemma C5_all_tie_witness :
  In "openai" ["openai"; "azure_openai"]
  /\ (forall n req,
        label_of "pairwise_comparison" (judge_always "equal" "Tie" n req)
        = Some "Tie")
  /\ Forall (fun xs => List.length xs = 2)
       [["a1"; "a2"]; ["b1"; "b2"]; ["q1"; "q2"]; ["r1"; "r2"]]
  /\ exists st' (ps : list string),
       pairwise_comparison_judged (judge_always "equal" "Tie") "gpt-3.5-turbo"
         (StrList ["a1"; "a2"]) (StrList ["b1"; "b2"]) (StrList ["q1"; "q2"])
         None None (Some ["r1"; "r2"]) "openai" None None (initial [])
       = (Ok PyNone, st')
       /\ List.length ps = 2
       /\ stdout st' = [Floats [0.5%R; 0.5%R]; Strings ["equal"; "equal"]].
Proof.
  split; [simpl; auto|]. split; [reflexivity|]. split.
  - repeat constructor.
  - destruct (C5_all_tie (judge_always "equal" "Tie") "gpt-3.5-turbo"
                (StrList ["a1"; "a2"]) (StrList ["b1"; "b2"])
                (StrList ["q1"; "q2"]) None None (Some ["r1"; "r2"])
                "openai" None None (initial []) 2)
      as [st' [ps [Hrun [Hlen [_ [_ Hout]]]]]].
    + simpl; auto.
    + reflexivity.
    + repeat constructor.
    + exists st', ps. split; [exact Hrun|]. split; [exact Hlen|].
      rewrite Hout. destruct ps as [|q1 [|q2 [|q3 ps]]]; try discriminate Hlen.
      reflexivity.
Defined.

(** C2, as the specification states it, fails on the example: the call
    does not yield the one-element result; it yields [None]. *)
Lemma C2_returns_None_counterexample :
  fst example_run = Ok PyNone
  /\ fst example_run <> Ok (PyResults [(0.0%R, example_text)]).
Proof.
  assert (H : fst example_run = Ok PyNone) by reflexivity.
  split; [exact H|]. rewrite H. discriminate.
Qed.

(** C2, amended.  A run that completes returns [None] to its caller and has
    printed two lines, the scores and then the explanations: both have one
    entry per tuple of the batch, in order, the i-th being the score of the
    label and the free text of the judge's answer to the call for the i-th
    prompt.  On the example of the specification the two lines are [0.0]
    and the judge's text. *)
Theorem C2_prints_and_returns_None :
  (forall (judge : nat -> Request -> Response) (dm : string)
      (ga gb p : strs) (sa sb ref : option (list string))
      (mt : string) (cl : option OpenAI) (args : option (dict string))
      (st st' : state (list Request)) (v : pyval),
      pairwise_comparison_judged judge dm ga gb p sa sb ref mt cl args st
      = (Ok v, st') ->
      v = PyNone
      /\ exists ps vs,
           Forall2 (fun d q => call (policy_variant sa sb ref) d = Ok q)
             (zip ([iter ga; iter gb; iter p]
                   ++ policy_context sa sb ref)%list) ps
           /\ Forall2 (fun r x => verdict (oai_evaluator mt cl args) r = Ok x)
                (replies judge dm (oai_evaluator mt cl args)
                   (List.length (world st)) ps) vs
           /\ stdout st'
              = (stdout st
                 ++ [Floats (map fst vs); Strings (map snd vs)])%list)
  /\ fst example_run = Ok PyNone
  /\ stdout (snd example_run)
     = [Floats [0.0%R]; Strings [example_text]].
Proof.
  split; [|split; reflexivity].
  intros judge dm ga gb p sa sb ref mt cl args st st' v Hrun.
  destruct (str_in mt ["openai"; "azure_openai"]) eqn:Hmt.
  - destruct (rendered_exists (iter ga) (iter gb) (iter p) sa sb ref)
      as [ps [Hps _]].
    rewrite (run_judged judge dm ga gb p sa sb ref mt cl args ps st Hmt Hps)
      in Hrun.
    cbv zeta in Hrun.
    destruct (outcome judge dm (oai_evaluator mt cl args)
                (List.length (world st)) ps) as [[vs|e] m] eqn:Hout;
      [|discriminate Hrun].
    apply outcome_Ok in Hout. destruct Hout as [_ Hvs].
    inversion Hrun; subst. split; [reflexivity|].
    exists ps, vs. simpl. auto.
  - unfold pairwise_comparison_judged, pairwise_comparison in Hrun.
    unfold bind at 1, assert_ in Hrun. rewrite Hmt in Hrun.
    discriminate Hrun.
Qed.

(** The general part of C2 at the example. *)
Lemma C2_prints_and_returns_None_witness :
  example_run = (Ok PyNone, snd example_run)
  /\ exists ps vs,
       Forall2 (fun d q => call Fn_prompt d = Ok q)
         [["The sky is blue."; "I hate you."; "Describe something."]] ps
       /\ Forall2 (fun r x =>
                     verdict (oai_evaluator "openai" None None) r = Ok x)
            (replies (judge_always example_text "Response A") "gpt-3.5-turbo"
               (oai_evaluator "openai" None None) 0 ps) vs
       /\ stdout (snd example_run)
          = [Floats (map fst vs); Strings (map snd vs)].
Proof.
  split; [reflexivity|].
  exact (proj2 (proj1 C2_prints_and_returns_None
                  (judge_always example_text "Response A") "gpt-3.5-turbo"
                  (StrList ["The sky is blue."]) (StrList ["I hate you."])
                  (StrList ["Describe something."]) None None None
                  "openai" None None (initial []) (snd example_run) PyNone
                  eq_refl)).
Defined.

End PairwiseSpec.

Module SentimentSpec.

Import Sentiment SentimentFacts.

(** C8.  The local sentiment path always returns, and the score of each
    item is the neutral column of the softmax row halved plus the positive
    column; every such score lies between 0 and 1.  [sentiment] with model
    type [local] returns these scores as its metric values. *)
Theorem C8_local_sentiment_bounds
  (classifier : list string -> list row)
  (create : nat -> Request -> Response)
  (gens : list string) (prompts : option (list string))
  (args : option (dict string)) (st : state) :
  exists scores st',
    _sentiment_local classifier gens st = (Ok scores, st')
    /\ scores
       = map (fun x => (neutral (softmax x) / 2 + positive (softmax x))%R)
             (classifier gens)
    /\ Forall (fun s => (0 <= s <= 1)%R) scores
    /\ exists ev,
         sentiment classifier create gens prompts "local" args st
         = (Ok ev, st')
         /\ metric_values ev = scores.
Proof.
  eexists _, _. split; [apply sentiment_local_run|].
  split; [apply map_map|]. split.
  - rewrite map_map. apply Forall_forall. intros s Hs.
    apply in_map_iff in Hs. destruct Hs as [x [<- _]].
    apply softmax_score_bounds.
  - unfold sentiment, bind, assert_, ret.
    change (str_in "local" ["local"; "openai"]) with true.
    change (String.eqb "local" "local") with true. cbv beta iota.
    rewrite sentiment_local_run. eexists. split; reflexivity.
Qed.

End SentimentSpec.

Module JointSpec.

(** C7.  A model type outside the supported ones makes either entry point
    raise the assertion error at once, in the state it was called in: no
    request has been sent, nothing was printed, no progress bar opened and
    no global set. *)
Theorem C7_unsupported_model_type {W : Type}
  (get_score :
     Pairwise.OpenAIBasedEvaluator -> string -> (string -> string)
     -> M W (R * string))
  (ga gb p : strs) (sa sb ref : option (list string))
  (cl : option Pairwise.OpenAI) (args : option (dict string))
  (stp : Pairwise.state W)
  (classifier : list string -> list Sentiment.row)
  (create : nat -> Request -> Response)
  (gens : list string) (prompts : option (list string))
  (sts : Sentiment.state)
  (mtp mts : string) :
  ~ In mtp ["openai"; "azure_openai"] ->
  ~ In mts ["local"; "openai"] ->
  Pairwise.pairwise_comparison get_score ga gb p sa sb ref mtp cl args stp
  = (Raise (AssertionError Pairwise.unsupported_model_type), stp)
  /\ Sentiment.sentiment classifier create gens prompts mts args sts
     = (Raise (AssertionError Sentiment.unsupported_model_type), sts).
Proof.
  intros Hp Hs. apply str_in_not_In in Hp. apply str_in_not_In in Hs.
  split.
  - unfold Pairwise.pairwise_comparison. unfold bind at 1, assert_.
    rewrite Hp. reflexivity.
  - unfold Sentiment.sentiment. unfold bind at 1, assert_.
    rewrite Hs. reflexivity.
Qed.

(** [local] is not a model type of [pairwise_comparison], and
    [azure_openai] is not one of [sentiment]. *)
Lemma C7_unsupported_model_type_witness :
  ~ In "local" ["openai"; "azure_openai"]
  /\ ~ In "azure_openai" ["local"; "openai"]
  /\ Pairwise.pairwise_comparison Pairwise.get_score_const
       (StrList ["a"]) (StrList ["b"]) (StrList ["q"]) None None None
       "local" None None (Pairwise.initial tt)
     = (Raise (AssertionError Pairwise.unsupported_model_type),
        Pairwise.initial tt)
  /\ Sentiment.sentiment (fun _ => []) (Sentiment.create_always "Positive")
       ["fine"] None "azure_openai" None Sentiment.fresh
     = (Raise (AssertionError Sentiment.unsupported_model_type),
        Sentiment.fresh).
Proof.
  assert (H1 : ~ In "local" ["openai"; "azure_openai"])
    by (simpl; intuition discriminate).
  assert (H2 : ~ In "azure_openai" ["local"; "openai"])
    by (simpl; intuition discriminate).
  split; [exact H1|]. split; [exact H2|].
  exact (C7_unsupported_model_type Pairwise.get_score_const
           (StrList ["a"]) (StrList ["b"]) (StrList ["q"]) None None None
           None None (Pairwise.initial tt)
           (fun _ => []) (Sentiment.create_always "Positive")
           ["fine"] None Sentiment.fresh "local" "azure_openai" H1 H2).
Defined.

(** C9.  Every request that [_sentiment_openai] sends carries, besides its
    three fixed keywords, the single option [model = gpt-3.5-turbo] when
    [openai_args] is absent, and exactly the entries of [openai_args], with
    no default model, when it is present; and a request is sent whenever
    the batch is not empty and [openai_args] repeats none of the fixed
    keywords.  [pairwise_comparison] hands [openai_args] as given to its
    evaluator, whose requests carry it in the same way, the default model
    being the evaluator's own. *)
Theorem C9_openai_args_forwarded
  (create : nat -> Request -> Response)
  (gens : list string) (args : option (dict string)) (sts : Sentiment.state)
  (judge : nat -> Request -> Response) (dm : string)
  (ga gb p : strs) (sa sb ref : option (list string))
  (mt : string) (cl : option Pairwise.OpenAI)
  (stp : Pairwise.state (list Request)) :
  (exists new,
     Sentiment.requests (snd (Sentiment._sentiment_openai create gens args sts))
     = (Sentiment.requests sts ++ new)%list
     /\ Forall (fun q =>
                  options q = match args with
                              | None => [("model", "gpt-3.5-turbo")]
                              | Some d => d
                              end) new
     /\ (Sentiment.no_duplicate_keyword args = true ->
         gens <> [] -> new <> []))
  /\ Pairwise.openai_args (Pairwise.oai_evaluator mt cl args) = args
  /\ exists new,
       Pairwise.world
         (snd (Pairwise.pairwise_comparison_judged judge dm
                 ga gb p sa sb ref mt cl args stp))
       = (Pairwise.world stp ++ new)%list
       /\ Forall (fun q =>
                    options q = match args with
                                | None => [("model", dm)]
                                | Some d => d
                                end) new.
Proof.
  split; [|split; [reflexivity|]].
  - destruct (Sentiment._sentiment_openai create gens args sts)
      as [r st'] eqn:Hrun.
    apply SentimentFacts.loop_requests in Hrun.
    destruct Hrun as [_ [_ Hnew]]. exact Hnew.
  - destruct (str_in mt ["openai"; "azure_openai"]) eqn:Hmt.
    + destruct (PairwiseFacts.rendered_exists
                  (iter ga) (iter gb) (iter p) sa sb ref) as [ps [Hps _]].
      rewrite (PairwiseFacts.run_judged judge dm ga gb p sa sb ref mt cl args
                 ps stp Hmt Hps).
      cbv zeta.
      destruct (Pairwise.outcome judge dm (Pairwise.oai_evaluator mt cl args)
                  (List.length (Pairwise.world stp)) ps) as [[vs|e] m];
        simpl; eexists; (split; [reflexivity|]);
        apply Forall_forall; intros q Hq; apply in_map_iff in Hq;
        destruct Hq as [x [<- _]]; reflexivity.
    + unfold Pairwise.pairwise_comparison_judged, Pairwise.pairwise_comparison.
      unfold bind at 1, assert_. rewrite Hmt. simpl.
      exists []. rewrite app_nil_r. split; [reflexivity | constructor].
Qed.

(** One generated output and two invocation parameters: the one request
    carries the two parameters and no default model. *)
Lemma C9_openai_args_forwarded_witness :
  Sentiment.no_duplicate_keyword
    (Some [("model", "gpt-4"); ("temperature", "0")]) = true
  /\ ["I love it"] <> []
  /\ exists new,
       Sentiment.requests
         (snd (Sentiment._sentiment_openai (Sentiment.create_always "Positive")
                 ["I love it"]
                 (Some [("model", "gpt-4"); ("temperature", "0")])
                 Sentiment.fresh))
       = new
       /\ Forall (fun q =>
                    options q = [("model", "gpt-4"); ("temperature", "0")]) new
       /\ new <> [].
Proof.
  split; [reflexivity|]. split; [discriminate|].
  destruct (C9_openai_args_forwarded (Sentiment.create_always "Positive")
              ["I love it"] (Some [("model", "gpt-4"); ("temperature", "0")])
              Sentiment.fresh
              (Pairwise.judge_always "equal" "Tie") "gpt-3.5-turbo"
              (StrList ["a"]) (StrList ["b"]) (StrList ["q"]) None None None
              "openai" None (Pairwise.initial []))
    as [[new [Hreq [Hall Hsent]]] _].
  exists new. split; [exact Hreq|]. split; [exact Hall|].
  apply Hsent; [reflexivity | discriminate].
Defined.

(** C4.  When the remote model answers the first [k] calls of a batch with
    labels of the schema and call [k] with a label outside it, the batch
    raises after [k + 1] requests and hands nothing back: [sentiment] over
    the remote path raises the assertion error of
    [_sentiment_assessment_to_score], and [pairwise_comparison] raises
    [UnrecognizedAssessment] with nothing printed.  No score stands in for
    the refused label, and the scores of the items before it are lost with
    the loop. *)
Theorem C4_unrecognized_label_aborts
  (classifier : list string -> list Sentiment.row)
  (create : nat -> Request -> Response)
  (gens : list string) (prompts : option (list string))
  (args : option (dict string)) (sts : Sentiment.state) (ks : nat)
  (judge : nat -> Request -> Response) (dm : string)
  (ga gb p : strs) (sa sb ref : option (list string))
  (mt : string) (cl : option Pairwise.OpenAI)
  (stp : Pairwise.state (list Request)) (kp : nat) :
  let ns := List.length (Sentiment.requests sts) in
  let np := List.length (Pairwise.world stp) in
  let mapping := Pairwise.pairwise_comparison_assessment_to_score in
  Sentiment.no_duplicate_keyword args = true ->
  ks < List.length gens ->
  (forall i req, i < ks ->
     exists l, label_of "sentiment" (create (ns + i) req) = Some l
               /\ In l Sentiment.sentiment_labels) ->
  (forall req,
     exists l, label_of "sentiment" (create (ns + ks) req) = Some l
               /\ ~ In l Sentiment.sentiment_labels) ->
  In mt ["openai"; "azure_openai"] ->
  kp < Pairwise.shortest
         ([iter ga; iter gb; iter p] ++ Pairwise.policy_context sa sb ref)%list ->
  (forall i req, i < kp ->
     exists l, label_of "pairwise_comparison" (judge (np + i) req) = Some l
               /\ In l (keys mapping)) ->
  (forall req,
     exists l, label_of "pairwise_comparison" (judge (np + kp) req) = Some l
               /\ ~ In l (keys mapping)) ->
  (exists sts',
     Sentiment.sentiment classifier create gens prompts "openai" args sts
     = (Raise (AssertionError Sentiment.unrecognized_sentiment), sts')
     /\ List.length (Sentiment.requests sts') = ns + S ks)
  /\ (exists stp',
        Pairwise.pairwise_comparison_judged judge dm
          ga gb p sa sb ref mt cl args stp
        = (Raise UnrecognizedAssessment, stp')
        /\ Pairwise.stdout stp' = Pairwise.stdout stp
        /\ List.length (Pairwise.world stp') = np + S kp).
Proof.
  intros ns np mapping Hdup Hks Hsb Hsk Hmt Hkp Hpb Hpk.
  subst ns np mapping. split.
  - rewrite SentimentFacts.sentiment_openai_run.
    unfold Sentiment._sentiment_openai.
    destruct (SentimentFacts.loop_fails_at create args
                (AssertionError Sentiment.unrecognized_sentiment) Hdup
                ks gens [] sts Hks) as [sts' [Hrun Hlen]].
    + intros i req Hi. destruct (Hsb i req Hi) as [l [Hl Hin]].
      now apply (SentimentFacts.decode_label _ l Hl).
    + intros req. destruct (Hsk req) as [l [Hl Hnot]].
      now apply (SentimentFacts.decode_label _ l Hl).
    + rewrite Hrun. exists sts'. split; [reflexivity | exact Hlen].
  - apply str_in_In in Hmt.
    destruct (PairwiseFacts.rendered_exists
                (iter ga) (iter gb) (iter p) sa sb ref) as [ps [Hps _]].
    assert (Hlen : List.length ps
                   = Pairwise.shortest
                       ([iter ga; iter gb; iter p]
                        ++ Pairwise.policy_context sa sb ref)%list).
    { rewrite (PairwiseFacts.Forall2_call_length _ _ _ Hps).
      apply PairwiseFacts.zip_length. }
    rewrite (PairwiseFacts.run_judged judge dm ga gb p sa sb ref mt cl args
               ps stp Hmt Hps).
    cbv zeta.
    rewrite (PairwiseFacts.outcome_fails_at judge dm
               (Pairwise.oai_evaluator mt cl args) UnrecognizedAssessment
               kp ps).
    + eexists. split; [reflexivity|]. split; [reflexivity|].
      cbn [Pairwise.world].
      rewrite length_app, length_map, length_firstn. lia.
    + lia.
    + intros i req Hi. destruct (Hpb i req Hi) as [l [Hl Hin]].
      rewrite (PairwiseFacts.verdict_label
                 (Pairwise.oai_evaluator mt cl args) _ l Hl).
      destruct (dict_get_In _ _ Hin) as [v Hv].
      simpl Pairwise.assessment_to_score_mapping.
      rewrite Hv. eauto.
    + intros req. destruct (Hpk req) as [l [Hl Hnot]].
      rewrite (PairwiseFacts.verdict_label
                 (Pairwise.oai_evaluator mt cl args) _ l Hl).
      simpl Pairwise.assessment_to_score_mapping.
      rewrite (dict_get_not_In _ _ Hnot). reflexivity.
Qed.

(** Three items each; the second answer is a label outside the schema:
    two requests are sent and nothing comes back. *)
Lemma C4_unrecognized_label_aborts_witness :
  (forall i req, i < 1 ->
     exists l,
       label_of "sentiment"
         (Sentiment.create_until 1 "Positive" "Mixed" (0 + i) req) = Some l
       /\ In l Sentiment.sentiment_labels)
  /\ (forall req,
        exists l,
          label_of "sentiment"
            (Sentiment.create_until 1 "Positive" "Mixed" (0 + 1) req) = Some l
          /\ ~ In l Sentiment.sentiment_labels)
  /\ (forall i req, i < 1 ->
        exists l,
          label_of "pairwise_comparison"
            (Pairwise.judge_until 1 "Tie" "Both" (0 + i) req) = Some l
          /\ In l (keys Pairwise.pairwise_comparison_assessment_to_score))
  /\ (forall req,
        exists l,
          label_of "pairwise_comparison"
            (Pairwise.judge_until 1 "Tie" "Both" (0 + 1) req) = Some l
          /\ ~ In l (keys Pairwise.pairwise_comparison_assessment_to_score))
  /\ (exists sts',
        Sentiment.sentiment (fun _ => [])
          (Sentiment.create_until 1 "Positive" "Mixed")
          ["g0"; "g1"; "g2"] None "openai" None Sentiment.fresh
        = (Raise (AssertionError Sentiment.unrecognized_sentiment), sts')
        /\ List.length (Sentiment.requests sts') = 2)
  /\ (exists stp',
        Pairwise.pairwise_comparison_judged
          (Pairwise.judge_until 1 "Tie" "Both") "gpt-3.5-turbo"
          (StrList ["a0"; "a1"; "a2"]) (StrList ["b0"; "b1"; "b2"])
          (StrList ["q0"; "q1"; "q2"]) None None None "openai" None None
          (Pairwise.initial [])
        = (Raise UnrecognizedAssessment, stp')
        /\ Pairwise.stdout stp' = []
        /\ List.length (Pairwise.world stp') = 2).
Proof.
  assert (Hsb : forall i req, i < 1 ->
            exists l,
              label_of "sentiment"
                (Sentiment.create_until 1 "Positive" "Mixed" (0 + i) req)
              = Some l
              /\ In l Sentiment.sentiment_labels).
  { intros i req Hi. assert (i = 0) by lia. subst i.
    exists "Positive". split; [reflexivity | simpl; auto]. }
  assert (Hsk : forall req,
            exists l,
              label_of "sentiment"
                (Sentiment.create_until 1 "Positive" "Mixed" (0 + 1) req)
              = Some l
              /\ ~ In l Sentiment.sentiment_labels).
  { intros req. exists "Mixed".
    split; [reflexivity | simpl; intuition discriminate]. }
  assert (Hpb : forall i req, i < 1 ->
            exists l,
              label_of "pairwise_comparison"
                (Pairwise.judge_until 1 "Tie" "Both" (0 + i) req) = Some l
              /\ In l (keys Pairwise.pairwise_comparison_assessment_to_score)).
  { intros i req Hi. assert (i = 0) by lia. subst i.
    exists "Tie". split; [reflexivity | simpl; auto]. }
  assert (Hpk : forall req,
            exists l,
              label_of "pairwise_comparison"
                (Pairwise.judge_until 1 "Tie" "Both" (0 + 1) req) = Some l
              /\ ~ In l (keys Pairwise.pairwise_comparison_assessment_to_score)).
  { intros req. exists "Both".
    split; [reflexivity | simpl; intuition discriminate]. }
  split; [exact Hsb|]. split; [exact Hsk|].
  split; [exact Hpb|]. split; [exact Hpk|].
  apply (C4_unrecognized_label_aborts (fun _ => [])
           (Sentiment.create_until 1 "Positive" "Mixed")
           ["g0"; "g1"; "g2"] None None Sentiment.fresh 1
           (Pairwise.judge_until 1 "Tie" "Both") "gpt-3.5-turbo"
           (StrList ["a0"; "a1"; "a2"]) (StrList ["b0"; "b1"; "b2"])
           (StrList ["q0"; "q1"; "q2"]) None None None "openai" None
           (Pairwise.initial []) 1).
  - reflexivity.
  - simpl; lia.
  - exact Hsb.
  - exact Hsk.
  - simpl; auto.
  - simpl; lia.
  - exact Hpb.
  - exact Hpk.
Defined.

End JointSpec.

(** * Further properties of the code *)

Module PairwiseExtra.

Import Pairwise PairwiseFacts Helpers.


Lemma chars_nth (s : string) :
  forall i, nth i (chars s) EmptyString = char_at s i.
Proof.
  unfold char_at. induction s as [|c s IH]; intros [|i]; simpl; auto.
Qed.

Section Generic.

Context {W : Type}.
Variable get_score :
  OpenAIBasedEvaluator -> string -> (string -> string) -> M W (R * string).


(** A run, in terms of its loop. *)
Lemma run_unfold (ga gb p : strs) (sa sb ref : option (list string))
  (mt : string) (cl : option OpenAI) (args : option (dict string))
  (st : state W) :
  pairwise_comparison get_score ga gb p sa sb ref mt cl args st
  = if str_in mt ["openai"; "azure_openai"] then
      match
        loop get_score (oai_evaluator mt cl args) (policy_variant sa sb ref)
          (zip ([iter ga; iter gb; iter p] ++ policy_context sa sb ref)%list)
          [] []
          {| world := world st; judged := judged st;
             bars := (bars st ++ [("Calculating scores", len p)])%list;
             stdout := stdout st |}
      with
      | (Ok (sl, el), st2) =>
          (Ok PyNone,
           {| world := world st2; judged := judged st2; bars := bars st2;
              stdout := (stdout st2 ++ [Floats sl; Strings el])%list |})
      | (Raise e, st2) => (Raise e, st2)
      end
    else (Raise (AssertionError unsupported_model_type), st).
Proof.
  unfold pairwise_comparison. unfold bind at 1, assert_.
  destruct (str_in mt ["openai"; "azure_openai"]); [|reflexivity].
  unfold ret at 1. unfold bind at 1, lift at 1. rewrite select_policy.
  unfold bind at 1, tqdm_wrapper at 1. unfold bind at 1.
  match goal with
  | |- context [loop ?g ?ev ?f ?d ?a ?b ?s] =>
      destruct (loop g ev f d a b s) as [[[sl el]|e0] st1]
  end; [|reflexivity].
  unfold bind, print, modify, ret. simpl. rewrite <- app_assoc. reflexivity.
Qed.

End Generic.






(** X4.  A single source sequence is used in the same way whether it is
    given as [sources_a] or as [sources_b]: the two runs are the same run,
    for any evaluator and whatever [reference_outputs] is. *)
Theorem X4_single_source_symmetric {W : Type}
  (get_score :
     OpenAIBasedEvaluator -> string -> (string -> string) -> M W (R * string))
  (ga gb p : strs) (s : list string) (ref : option (list string))
  (mt : string) (cl : option OpenAI) (args : option (dict string))
  (st : state W) :
  pairwise_comparison get_score ga gb p (Some s) None ref mt cl args st
  = pairwise_comparison get_score ga gb p None (Some s) ref mt cl args st.
Proof.
  rewrite !run_unfold. destruct ref; reflexivity.
Qed.

(** X5.  The three templates are told apart by their fixed text: a prompt
    is an instance of one template only, so the prompt function that
    rendered a prompt can be read off the prompt, whatever the outputs,
    query, reference and sources are. *)
Theorem X5_template_determines_variant (f g : prompt_fn) (q : string) :
  uses f q -> uses g q -> f = g.
Proof.
  assert (Hp : forall a b u, String.get 75 (_prompt a b u) = Some "H"%char)
    by reflexivity.
  assert (Hr : forall a b u r,
             String.get 75 (_prompt_with_reference a b u r) = Some "T"%char)
    by reflexivity.
  assert (Hs : forall a b u s1 s2,
             String.get 75 (_prompt_with_sources a b u s1 s2) = Some "S"%char)
    by (intros a b u s1 [s2|]; reflexivity).
  destruct f, g; cbn [uses]; intros Hf Hg; try reflexivity; exfalso;
    repeat match goal with
    | H : exists _, _ |- _ => destruct H as [? H]
    end; subst q;
    apply (f_equal (String.get 75)) in Hg;
    rewrite ?Hp, ?Hr, ?Hs in Hg; discriminate Hg.
Qed.

(** A prompt rendered without context is no instance of the template with
    sources. *)
Lemma X5_template_determines_variant_witness :
  uses Fn_prompt (_prompt "a" "b" "q")
  /\ (uses Fn_prompt_with_sources (_prompt "a" "b" "q") -> False).
Proof.
  assert (H : uses Fn_prompt (_prompt "a" "b" "q"))
    by (exists "a", "b", "q"; reflexivity).
  split; [exact H|]. intros Hs.
  pose proof (X5_template_determines_variant
                Fn_prompt Fn_prompt_with_sources _ H Hs) as Heq.
  discriminate Heq.
Defined.

(** X6.  Arguments given as plain strings are compared character by
    character: the batch has as many items as the shortest string has
    characters, and item [i] is rendered from the [i]-th characters of the
    three strings. *)
Theorem X6_strings_are_zipped_by_character (a b q : string) :
  let data := zip [chars a; chars b; chars q] in
  select (Str a) (Str b) (Str q) None None None = Ok (Fn_prompt, data)
  /\ List.length data
     = Nat.min (String.length a)
         (Nat.min (String.length b) (String.length q))
  /\ forall i, i < List.length data ->
       call Fn_prompt (nth i data [])
       = Ok (_prompt (char_at a i) (char_at b i) (char_at q i)).
Proof.
  intros data. split; [reflexivity|].
  assert (Hlen : List.length data
                 = Nat.min (String.length a)
                     (Nat.min (String.length b) (String.length q))).
  { unfold data. rewrite zip_length. cbn [shortest].
    now rewrite !chars_length. }
  split; [exact Hlen|]. intros i Hi.
  unfold data in *. rewrite zip_length in Hi. rewrite zip_nth by exact Hi.
  cbn [map]. rewrite !chars_nth. reflexivity.
Qed.

(** Two strings of three characters against one of two. *)
Lemma X6_strings_are_zipped_by_character_witness :
  1 < List.length (zip [chars "abc"; chars "xy"; chars "uvw"])
  /\ call Fn_prompt (nth 1 (zip [chars "abc"; chars "xy"; chars "uvw"]) [])
     = Ok (_prompt "b" "y" "v").
Proof.
  assert (H : 1 < List.length (zip [chars "abc"; chars "xy"; chars "uvw"]))
    by (simpl; lia).
  split; [exact H|].
  exact (proj2 (proj2 (X6_strings_are_zipped_by_character "abc" "xy" "uvw"))
           1 H).
Defined.

End PairwiseExtra.

Module SentimentExtra.

Import Sentiment SentimentFacts Helpers.

Lemma decode_scored (r : Response) (s : R) :
  decode r = Ok s ->
  _sentiment_assessment_to_score (label_of "sentiment" r) = Ok s
  /\ (s = 1.0 \/ s = 0.5 \/ s = 0.0)%R.
Proof.
  destruct r as [|text [| |obj]]; simpl; try discriminate.
  intros H. split; [exact H|].
  unfold _sentiment_assessment_to_score in H.
  destruct (eq_str _ "Positive"); [inversion H; auto|].
  destruct (eq_str _ "Neutral"); [inversion H; auto|].
  destruct (eq_str _ "Negative"); [inversion H; auto|].
  discriminate H.
Qed.

Lemma scorer_exact (a : option string) :
  match _sentiment_assessment_to_score a with
  | Ok s => exists l, a = Some l /\ In l sentiment_labels
  | Raise e =>
      e = AssertionError unrecognized_sentiment
      /\ forall l, a = Some l -> ~ In l sentiment_labels
  end.
Proof.
  unfold _sentiment_assessment_to_score, sentiment_labels.
  destruct a as [l|]; simpl.
  - destruct (String.eqb_spec l "Positive") as [->|H1];
      [exists "Positive"; simpl; auto|].
    destruct (String.eqb_spec l "Neutral") as [->|H2];
      [exists "Neutral"; simpl; auto|].
    destruct (String.eqb_spec l "Negative") as [->|H3];
      [exists "Negative"; simpl; auto|].
    split; [reflexivity|]. intros l' Hl'. inversion Hl'; subst.
    simpl. intuition congruence.
  - split; [reflexivity|]. intros l Hl. discriminate Hl.
Qed.

Lemma fails_with_decode (r : Response) (e : exn) :
  fails_with r e -> decode r = Raise e.
Proof.
  destruct 1 as [| | |text obj Hobj]; try reflexivity. simpl.
  pose proof (scorer_exact (dict_get obj "sentiment")) as Hex.
  destruct (_sentiment_assessment_to_score (dict_get obj "sentiment")).
  - destruct Hex as [l [Hl Hin]]. exfalso. exact (Hobj l Hl Hin).
  - destruct Hex as [-> _]. reflexivity.
Qed.

Lemma tally_count (l : list Response) :
  snd (tally l) <= List.length l
  /\ forall v, fst (tally l) = Ok v ->
       snd (tally l) = List.length l
       /\ Forall2 (fun a s => decode a = Ok s) l v.
Proof.
  induction l as [|a l [IHle IHok]]; simpl.
  - split; [lia|]. intros v Hv. inversion Hv. split; [reflexivity|constructor].
  - destruct (decode a) as [s|e] eqn:Ha; simpl.
    + destruct (tally l) as [[v'|e] m]; simpl in *.
      * split; [lia|]. intros v Hv. inversion Hv; subst.
        destruct (IHok v' eq_refl) as [Hm Hf]. split; [lia|].
        constructor; assumption.
      * split; [lia|]. intros v Hv. discriminate Hv.
    + split; [lia|]. intros v Hv. discriminate Hv.
Qed.

Lemma tally_ok (l : list Response) :
  Forall (fun a => exists s, decode a = Ok s) l ->
  exists v, tally l = (Ok v, List.length l).
Proof.
  induction 1 as [|a l [s Hs] Hl [v IH]]; simpl.
  - eexists. reflexivity.
  - rewrite Hs, IH. eexists. reflexivity.
Qed.

Lemma tally_fails_at (e : exn) :
  forall k l,
    k < List.length l ->
    Forall (fun a => exists s, decode a = Ok s) (firstn k l) ->
    decode (nth k l ApiFailure) = Raise e ->
    tally l = (Raise e, S k).
Proof.
  induction k as [|k IH]; intros [|a l] Hk Hbefore Hat; simpl in Hk; try lia;
    simpl in *.
  - rewrite Hat. reflexivity.
  - inversion Hbefore as [|? ? [s Hs] Hrest]; subst.
    rewrite Hs, (IH l); [reflexivity | lia | assumption | assumption].
Qed.

Section Remote.

Variable create : nat -> Request -> Response.

(** The loop, when [openai_args] repeats no fixed keyword, is the tally of
    the answers to one request per output, in order. *)
Lemma loop_answers (args : option (dict string)) (gens : list string) :
  no_duplicate_keyword args = true ->
  forall sl st,
    _sentiment_openai_loop create gens args sl st
    = let '(r, m) :=
        tally (answers create args (List.length (requests st)) gens) in
      (match r with
       | Ok v => Ok (sl ++ v)%list
       | Raise e => Raise e
       end,
       {| requests :=
            (requests st
             ++ map (fun g => request_for g args) (firstn m gens))%list;
          _sentiment_tokenizer := _sentiment_tokenizer st;
          _sentiment_model := _sentiment_model st |}).
Proof.
  intros Hdup. induction gens as [|gen rest IH]; intros sl st.
  - simpl. unfold ret. rewrite !app_nil_r. destruct st; reflexivity.
  - simpl. unfold bind at 1. rewrite (assess_run create gen args st Hdup).
    destruct (decode _) as [s|e]; [|reflexivity].
    rewrite IH. cbn [sent requests _sentiment_tokenizer _sentiment_model].
    rewrite length_app. cbn [List.length]. rewrite Nat.add_1_r.
    destruct (tally _) as [[v|e] m]; cbn [firstn map];
      rewrite <- !app_assoc; reflexivity.
Qed.

(** With a repeated fixed keyword the loop sends nothing. *)
Lemma loop_duplicate (d : dict string) (k : string) (gens : list string)
  (sl : list R) (st : state) :
  duplicate_keyword d = Some k ->
  _sentiment_openai_loop create gens (Some d) sl st
  = match gens with
    | [] => (Ok sl, st)
    | _ :: _ => (Raise (TypeError k), st)
    end.
Proof.
  intros Hk. destruct gens as [|gen rest]; [reflexivity|].
  simpl. unfold bind at 1. rewrite (assess_duplicate create gen d k st Hk).
  reflexivity.
Qed.

End Remote.

Lemma label_decodes (a : Response) :
  (exists l, label_of "sentiment" a = Some l /\ In l sentiment_labels) ->
  exists s, decode a = Ok s.
Proof.
  intros [l [Hl Hin]].
  exact (proj1 (decode_label a l Hl) Hin).
Qed.

Lemma answers_length (create : nat -> Request -> Response)
  (args : option (dict string)) (gens : list string) :
  forall n, List.length (answers create args n gens) = List.length gens.
Proof. induction gens as [|g gens IH]; intros n; simpl; auto. Qed.

(** X7.  When [openai_args] repeats no fixed keyword and every answer
    carries a label of the schema, [_sentiment_openai] returns one score per
    output, in order, each the score of the label of the answer to that
    output's request and so one of 1.0, 0.5 and 0.0; it has sent exactly
    one request per output, in order; and [sentiment] returns these scores
    as its metric values. *)
Theorem X7_openai_scores
  (classifier : list string -> list row)
  (create : nat -> Request -> Response)
  (gens : list string) (prompts : option (list string))
  (args : option (dict string)) (st : state) :
  let replies := answers create args (List.length (requests st)) gens in
  no_duplicate_keyword args = true ->
  Forall (fun a => exists l, label_of "sentiment" a = Some l
                             /\ In l sentiment_labels) replies ->
  exists scores st',
    _sentiment_openai create gens args st = (Ok scores, st')
    /\ Forall2 (fun a s =>
                  _sentiment_assessment_to_score (label_of "sentiment" a)
                  = Ok s) replies scores
    /\ List.length scores = List.length gens
    /\ Forall (fun s => (s = 1.0 \/ s = 0.5 \/ s = 0.0)%R) scores
    /\ requests st'
       = (requests st ++ map (fun g => request_for g args) gens)%list
    /\ exists ev,
         sentiment classifier create gens prompts "openai" args st
         = (Ok ev, st')
         /\ metric_values ev = scores
         /\ generated_outputs ev = gens.
Proof.
  intros replies Hdup Hlabels.
  assert (Hok : Forall (fun a => exists s, decode a = Ok s) replies).
  { eapply Forall_impl; [|exact Hlabels]. intros a. apply label_decodes. }
  destruct (tally_ok replies Hok) as [v Hv].
  destruct (tally_count replies) as [_ Hcount]. rewrite Hv in Hcount.
  destruct (Hcount v eq_refl) as [_ Hf2].
  assert (Hrun : _sentiment_openai create gens args st
                 = (Ok v,
                    {| requests :=
                         (requests st
                          ++ map (fun g => request_for g args) gens)%list;
                       _sentiment_tokenizer := _sentiment_tokenizer st;
                       _sentiment_model := _sentiment_model st |})).
  { unfold _sentiment_openai. rewrite (loop_answers create args gens Hdup).
    fold replies. rewrite Hv. unfold replies.
    rewrite answers_length, firstn_all. reflexivity. }
  eexists v, _. split; [exact Hrun|]. split.
  { eapply Forall2_impl; [|exact Hf2]. intros a s Has.
    now apply decode_scored. }
  split.
  { rewrite <- (Forall2_length Hf2). apply answers_length. }
  split.
  { clear - Hf2. induction Hf2; constructor; auto.
    eapply decode_scored. eassumption. }
  split; [reflexivity|].
  rewrite sentiment_openai_run, Hrun. eexists. repeat split.
Qed.

(** Two outputs, a remote API that always answers [Neutral], and two
    invocation parameters. *)
Lemma X7_openai_scores_witness :
  no_duplicate_keyword (Some [("model", "gpt-4"); ("temperature", "0")]) = true
  /\ exists scores st',
       _sentiment_openai (create_always "Neutral") ["fine"; "so-so"]
         (Some [("model", "gpt-4"); ("temperature", "0")]) fresh
       = (Ok scores, st')
       /\ List.length scores = 2
       /\ Forall (fun s => (s = 1.0 \/ s = 0.5 \/ s = 0.0)%R) scores
       /\ List.length (requests st') = 2.
Proof.
  split; [reflexivity|].
  destruct (X7_openai_scores (fun _ => []) (create_always "Neutral")
              ["fine"; "so-so"] None
              (Some [("model", "gpt-4"); ("temperature", "0")]) fresh)
    as [scores [st' [Hrun [_ [Hlen [Hval [Hreq _]]]]]]].
  - reflexivity.
  - repeat constructor; exists "Neutral"; (split; [reflexivity|simpl; auto]).
  - exists scores, st'. split; [exact Hrun|]. split; [exact Hlen|].
    split; [exact Hval|]. rewrite Hreq. reflexivity.
Defined.

(** X8.  Whatever the remote API answers, [_sentiment_openai] sends its
    requests in the order of the outputs, at most one per output and none
    for an output after the first that fails: the requests sent are those
    of a prefix of the outputs, each with the prompt of its output as the
    only message, and of all the outputs when it returns, with one score
    each.  It raises on a non-empty batch only, and leaves the module
    globals alone. *)
Theorem X8_one_request_per_output
  (create : nat -> Request -> Response)
  (gens : list string) (args : option (dict string)) (st : state) :
  let run := _sentiment_openai create gens args st in
  exists m,
    m <= List.length gens
    /\ requests (snd run)
       = (requests st
          ++ map (fun g => request_for g args) (firstn m gens))%list
    /\ Forall (fun g =>
                 messages (request_for g args)
                 = [{| role := "user"; content := _prompt g |}]) gens
    /\ _sentiment_tokenizer (snd run) = _sentiment_tokenizer st
    /\ _sentiment_model (snd run) = _sentiment_model st
    /\ match fst run with
       | Ok scores =>
           m = List.length gens /\ List.length scores = List.length gens
       | Raise _ => gens <> []
       end.
Proof.
  intros run. subst run. unfold _sentiment_openai.
  assert (Hmsg : Forall (fun g =>
                   messages (request_for g args)
                   = [{| role := "user"; content := _prompt g |}]) gens)
    by (apply Forall_forall; reflexivity).
  destruct (no_duplicate_keyword args) eqn:Hdup.
  - rewrite (loop_answers create args gens Hdup).
    pose proof (tally_count
                  (answers create args (List.length (requests st)) gens))
      as [Hle Hok].
    rewrite answers_length in Hle, Hok.
    destruct (tally (answers create args (List.length (requests st)) gens))
      as [[v|e] m] eqn:Ht; cbn [fst snd] in *;
      cbn [requests _sentiment_tokenizer _sentiment_model];
      exists m; (split; [exact Hle|]); (split; [reflexivity|]);
      (split; [exact Hmsg|]); (split; [reflexivity|]);
      (split; [reflexivity|]).
    + destruct (Hok v eq_refl) as [Hm Hf]. split; [exact Hm|].
      rewrite app_nil_l, <- (Forall2_length Hf). apply answers_length.
    + intros ->. discriminate Ht.
  - destruct args as [d|]; [|discriminate Hdup]. simpl in Hdup.
    destruct (duplicate_keyword d) as [k|] eqn:Hk; [|discriminate Hdup].
    rewrite (loop_duplicate create d k gens [] st Hk).
    exists 0. destruct gens as [|g gens]; cbn [fst snd firstn map];
      rewrite app_nil_r;
      (split; [cbn [List.length]; lia|]); (split; [reflexivity|]);
      (split; [exact Hmsg|]); (split; [reflexivity|]);
      (split; [reflexivity|]).
    + split; reflexivity.
    + discriminate.
Qed.

(** X9.  When [openai_args] has one of the keywords that the call passes
    by name ([messages], [functions], [function_call]), a non-empty batch
    raises a [TypeError] naming such a key of [openai_args] before any
    request is sent, and [sentiment] raises it too; an empty batch returns
    no scores. *)
Theorem X9_duplicate_keyword
  (classifier : list string -> list row)
  (create : nat -> Request -> Response)
  (gens : list string) (prompts : option (list string))
  (d : dict string) (k : string) (st : state) :
  duplicate_keyword d = Some k ->
  In k (keys d) /\ In k fixed_keywords
  /\ _sentiment_openai create [] (Some d) st = (Ok [], st)
  /\ (gens <> [] ->
      _sentiment_openai create gens (Some d) st = (Raise (TypeError k), st)
      /\ sentiment classifier create gens prompts "openai" (Some d) st
         = (Raise (TypeError k), st)).
Proof.
  intros Hk. unfold duplicate_keyword in Hk.
  pose proof (find_some _ _ Hk) as [Hin Hfixed].
  apply str_in_In in Hfixed.
  split; [exact Hin|]. split; [exact Hfixed|]. split; [reflexivity|].
  intros Hne. unfold _sentiment_openai.
  assert (Hrun : _sentiment_openai_loop create gens (Some d) [] st
                 = (Raise (TypeError k), st)).
  { rewrite (loop_duplicate create d k gens [] st Hk).
    destruct gens; [congruence | reflexivity]. }
  split; [exact Hrun|].
  rewrite sentiment_openai_run. unfold _sentiment_openai. rewrite Hrun.
  reflexivity.
Qed.

(** Invocation parameters that carry their own [messages]. *)
Lemma X9_duplicate_keyword_witness :
  duplicate_keyword [("model", "gpt-4"); ("messages", "hello")]
  = Some "messages"
  /\ ["fine"] <> []
  /\ _sentiment_openai (create_always "Positive") ["fine"]
       (Some [("model", "gpt-4"); ("messages", "hello")]) fresh
     = (Raise (TypeError "messages"), fresh).
Proof.
  assert (H1 : duplicate_keyword [("model", "gpt-4"); ("messages", "hello")]
               = Some "messages") by reflexivity.
  assert (H2 : ["fine"] <> @nil string) by discriminate.
  split; [exact H1|]. split; [exact H2|].
  exact (proj1 (proj2 (proj2 (proj2
           (X9_duplicate_keyword (fun _ => []) (create_always "Positive")
              ["fine"] None [("model", "gpt-4"); ("messages", "hello")]
              "messages" fresh H1))) H2)).
Defined.

(** X10.  [_sentiment_openai] stops at the first answer that it cannot
    score: when [openai_args] repeats no fixed keyword, the answers to the
    first [k] outputs carry labels of the schema and the answer to output
    [k] is a failed call, a message without function call, arguments that
    are not JSON or arguments without a label of the schema, the batch
    raises the matching exception ([APIError], [KeyError],
    [JSONDecodeError], [AssertionError]) after exactly [k + 1] requests,
    and [sentiment] raises it too. *)
Theorem X10_stops_at_first_failure
  (classifier : list string -> list row)
  (create : nat -> Request -> Response)
  (gens : list string) (prompts : option (list string))
  (args : option (dict string)) (st : state) (k : nat) (e : exn) :
  let replies := answers create args (List.length (requests st)) gens in
  no_duplicate_keyword args = true ->
  k < List.length gens ->
  Forall (fun a => exists l, label_of "sentiment" a = Some l
                             /\ In l sentiment_labels) (firstn k replies) ->
  fails_with (nth k replies ApiFailure) e ->
  exists st',
    _sentiment_openai create gens args st = (Raise e, st')
    /\ requests st'
       = (requests st
          ++ map (fun g => request_for g args) (firstn (S k) gens))%list
    /\ sentiment classifier create gens prompts "openai" args st
       = (Raise e, st').
Proof.
  intros replies Hdup Hk Hbefore Hat.
  assert (Ht : tally replies = (Raise e, S k)).
  { apply tally_fails_at.
    - unfold replies. rewrite answers_length. exact Hk.
    - eapply Forall_impl; [|exact Hbefore]. intros a. apply label_decodes.
    - now apply fails_with_decode. }
  assert (Hrun : _sentiment_openai create gens args st
                 = (Raise e,
                    {| requests :=
                         (requests st
                          ++ map (fun g => request_for g args)
                                 (firstn (S k) gens))%list;
                       _sentiment_tokenizer := _sentiment_tokenizer st;
                       _sentiment_model := _sentiment_model st |})).
  { unfold _sentiment_openai. rewrite (loop_answers create args gens Hdup).
    fold replies. rewrite Ht. reflexivity. }
  eexists. split; [exact Hrun|]. split; [reflexivity|].
  rewrite sentiment_openai_run, Hrun. reflexivity.
Qed.

(** Three outputs and a remote API that is down from its second call on:
    two requests are sent. *)
Lemma X10_stops_at_first_failure_witness :
  no_duplicate_keyword None = true
  /\ 1 < List.length ["g0"; "g1"; "g2"]
  /\ fails_with
       (nth 1 (answers (create_down_from 1) None 0 ["g0"; "g1"; "g2"])
            ApiFailure) APIError
  /\ exists st',
       _sentiment_openai (create_down_from 1) ["g0"; "g1"; "g2"] None fresh
       = (Raise APIError, st')
       /\ requests st'
          = [request_for "g0" None; request_for "g1" None].
Proof.
  assert (H1 : fails_with
                 (nth 1 (answers (create_down_from 1) None 0
                           ["g0"; "g1"; "g2"]) ApiFailure) APIError)
    by constructor.
  split; [reflexivity|]. split; [simpl; lia|]. split; [exact H1|].
  destruct (X10_stops_at_first_failure (fun _ => []) (create_down_from 1)
              ["g0"; "g1"; "g2"] None None fresh 1 APIError)
    as [st' [Hrun [Hreq _]]].
  - reflexivity.
  - simpl; lia.
  - repeat constructor. exists "Neutral". split; [reflexivity|simpl; auto].
  - exact H1.
  - exists st'. split; [exact Hrun | exact Hreq].
Defined.

(** X11.  The local path of [sentiment] does not depend on the remote API
    and on [openai_args], sends no request, and leaves both module globals
    set; once they are set, a further local call changes nothing of the
    state. *)
Theorem X11_local_path_is_local
  (classifier : list string -> list row)
  (create create' : nat -> Request -> Response)
  (gens gens' : list string) (prompts prompts' : option (list string))
  (args args' : option (dict string)) (st : state) :
  let run := sentiment classifier create gens prompts "local" args st in
  run = sentiment classifier create' gens prompts "local" args' st
  /\ requests (snd run) = requests st
  /\ is_not_None (_sentiment_tokenizer (snd run)) = true
  /\ is_not_None (_sentiment_model (snd run)) = true
  /\ snd (sentiment classifier create gens' prompts' "local" args (snd run))
     = snd run.
Proof.
  assert (Hlocal : forall c g p a s,
             sentiment classifier c g p "local" a s
             = (Ok {| metric_name := "sentiment";
                      prompts := p;
                      generated_outputs := g;
                      reference_outputs := None;
                      sources := None;
                      metric_values :=
                        map (fun x => (neutral x / 2 + positive x)%R)
                            (map softmax (classifier g));
                      language := "en" |},
                snd (_sentiment_local classifier g s))).
  { intros c g p a s. unfold sentiment, bind, assert_, ret.
    change (str_in "local" ["local"; "openai"]) with true.
    change (String.eqb "local" "local") with true. cbv beta iota.
    rewrite sentiment_local_run. reflexivity. }
  intros run. subst run. rewrite !Hlocal. cbn [snd].
  rewrite !sentiment_local_run. cbn [snd].
  destruct st as [reqs [tok|] [mdl|]]; simpl; repeat split; reflexivity.
Qed.

Open Scope R_scope.



Close Scope R_scope.

(** X13.  The labels that [_sentiment_assessment_to_score] scores are
    exactly the labels that every request offers to the remote model in the
    [enum] of its function schema: a label of the enum always has a score,
    and anything else, a missing label included, raises the assertion
    error; labels are compared with their case. *)
Theorem X13_scorer_matches_schema
  (gen : string) (args : option (dict string)) (a : option string) :
  map parameter_enum (functions (request_for gen args)) = [sentiment_labels]
  /\ match _sentiment_assessment_to_score a with
     | Ok s => exists l, a = Some l /\ In l sentiment_labels
     | Raise e =>
         e = AssertionError unrecognized_sentiment
         /\ forall l, a = Some l -> ~ In l sentiment_labels
     end
  /\ _sentiment_assessment_to_score (Some "positive")
     = Raise (AssertionError unrecognized_sentiment).
Proof.
  split; [reflexivity|]. split; [apply scorer_exact | reflexivity].
Qed.

End SentimentExtra.

Module FluencyExtra.

Import Fluency.

Open Scope R_scope.



Close Scope R_scope.


End FluencyExtra.

Module ReadabilityExtra.

Import Readability.

Open Scope R_scope.

Lemma true_div_value (a b : nat) :
  b <> 0%nat -> true_div a b = Value (INR a / INR b).
Proof.
  intros Hb. unfold true_div. destruct (Nat.eqb_spec b 0); [contradiction|].
  reflexivity.
Qed.


Lemma element_values (t : TextStats) :
  countable t = true ->
  reading_ease t
  = Value (206.835 - 1.015 * (INR (num_words t) / INR (num_sentences t))
           - 84.6 * (INR (num_syllables t) / INR (num_words t)))
  /\ kincaid_grade t
     = Value (0.39 * (INR (num_words t) / INR (num_sentences t))
              + 11.8 * (INR (num_syllables t) / INR (num_words t)) - 15.59).
Proof.
  unfold countable. intros H. apply andb_prop in H. destruct H as [Hs Hw].
  apply negb_true_iff in Hs, Hw. apply Nat.eqb_neq in Hs, Hw.
  unfold reading_ease, kincaid_grade.
  rewrite !(true_div_value _ _ Hs), !(true_div_value _ _ Hw).
  split; reflexivity.
Qed.

Lemma element_errors (t : TextStats) :
  countable t = false ->
  reading_ease t = ZeroDivisionError /\ kincaid_grade t = ZeroDivisionError.
Proof.
  unfold countable, reading_ease, kincaid_grade, true_div. intros H.
  destruct (Nat.eqb (num_sentences t) 0); [split; reflexivity|].
  destruct (Nat.eqb (num_words t) 0); [split; reflexivity|].
  discriminate H.
Qed.

Close Scope R_scope.

Lemma comprehension_values {A B} (f : A -> arith B) (g : A -> B)
  (l : list A) :
  Forall (fun x => f x = Value (g x)) l ->
  comprehension f l = Value (map g l).
Proof.
  induction 1 as [|x l Hx Hl IH]; simpl; [reflexivity|].
  now rewrite Hx, IH.
Qed.

Lemma comprehension_error {A B} (f : A -> arith B) (l : list A) :
  Exists (fun x => f x = ZeroDivisionError) l ->
  comprehension f l = ZeroDivisionError.
Proof.
  induction 1 as [x l Hx|x l Hl IH]; simpl.
  - now rewrite Hx.
  - destruct (f x); [rewrite IH|]; reflexivity.
Qed.

Lemma forallb_false_Exists {A} (f : A -> bool) (l : list A) :
  forallb f l = false -> Exists (fun x => f x = false) l.
Proof.
  induction l as [|x l IH]; simpl; [discriminate|].
  destruct (f x) eqn:Hx; simpl; intros H.
  - right. now apply IH.
  - now left.
Qed.

Section Stats.

Variable compute_stats : string -> TextStats.

(** On a batch of countable outputs both metrics return the scores of the
    outputs. *)
Lemma both_values (gens : list string) (prompts : option (list string)) :
  Forall (fun o => countable (compute_stats o) = true) gens ->
  flesch_reading_ease compute_stats gens prompts
  = Value {| Sentiment.metric_name := "flesch_reading_ease";
             Sentiment.prompts := prompts;
             Sentiment.generated_outputs := gens;
             Sentiment.reference_outputs := None;
             Sentiment.sources := None;
             Sentiment.metric_values :=
               map (fun o => ease_of (compute_stats o)) gens;
             Sentiment.language := "en" |}
  /\ flesch_kincaid_grade compute_stats gens prompts
     = Value {| Sentiment.metric_name := "flesch_kincaid_grade";
                Sentiment.prompts := prompts;
                Sentiment.generated_outputs := gens;
                Sentiment.reference_outputs := None;
                Sentiment.sources := None;
                Sentiment.metric_values :=
                  map (fun o => grade_of (compute_stats o)) gens;
                Sentiment.language := "en" |}.
Proof.
  intros Hall.
  assert (Hstats : Forall (fun t => countable t = true)
                     (map compute_stats gens)).
  { apply Forall_forall. intros t Ht. apply in_map_iff in Ht.
    destruct Ht as [o [<- Ho]]. rewrite Forall_forall in Hall. now apply Hall. }
  assert (He : comprehension reading_ease (map compute_stats gens)
               = Value (map ease_of (map compute_stats gens))).
  { apply comprehension_values. eapply Forall_impl; [|exact Hstats].
    intros t Ht. now apply element_values. }
  assert (Hg : comprehension kincaid_grade (map compute_stats gens)
               = Value (map grade_of (map compute_stats gens))).
  { apply comprehension_values. eapply Forall_impl; [|exact Hstats].
    intros t Ht. now apply element_values. }
  unfold flesch_reading_ease, flesch_kincaid_grade.
  rewrite He, Hg, !map_map. split; reflexivity.
Qed.

(** X15.  The two readability metrics are defined on the same batches:
    when every output has at least one sentence and one word, both return
    one score per output, in order, computed from the counts of that
    output; when some output has no sentence or no word, both raise
    [ZeroDivisionError] and return nothing for the batch. *)
Theorem X15_readability_defined
  (gens : list string) (prompts : option (list string)) :
  if forallb countable (map compute_stats gens) then
    exists e g,
      flesch_reading_ease compute_stats gens prompts = Value e
      /\ flesch_kincaid_grade compute_stats gens prompts = Value g
      /\ Sentiment.metric_values e
         = map (fun o => ease_of (compute_stats o)) gens
      /\ Sentiment.metric_values g
         = map (fun o => grade_of (compute_stats o)) gens
      /\ Sentiment.generated_outputs e = gens
      /\ Sentiment.generated_outputs g = gens
  else
    flesch_reading_ease compute_stats gens prompts = ZeroDivisionError
    /\ flesch_kincaid_grade compute_stats gens prompts = ZeroDivisionError.
Proof.
  destruct (forallb countable (map compute_stats gens)) eqn:Hall.
  - rewrite forallb_forall in Hall.
    destruct (both_values gens prompts) as [He Hg].
    { apply Forall_forall. intros o Ho. apply Hall. now apply in_map. }
    rewrite He, Hg. eexists _, _. repeat split.
  - pose proof (forallb_false_Exists _ _ Hall) as Hex.
    unfold flesch_reading_ease, flesch_kincaid_grade.
    rewrite !comprehension_error; [split; reflexivity | |].
    + eapply Exists_impl; [|exact Hex]. intros t Ht.
      now apply element_errors.
    + eapply Exists_impl; [|exact Hex]. intros t Ht.
      now apply element_errors.
Qed.




End Stats.


(** X17.  The two metrics order texts in opposite directions: of two texts
    with a sentence and a word each, the one with no more words per
    sentence and no more syllables per word has the reading ease that is
    no lower and the grade that is no higher. *)
Theorem X17_metrics_order_oppositely (t1 t2 : TextStats) :
  countable t1 = true -> countable t2 = true ->
  (INR (num_words t1) / INR (num_sentences t1)
   <= INR (num_words t2) / INR (num_sentences t2))%R ->
  (INR (num_syllables t1) / INR (num_words t1)
   <= INR (num_syllables t2) / INR (num_words t2))%R ->
  exists e1 e2 g1 g2,
    reading_ease t1 = Value e1 /\ reading_ease t2 = Value e2
    /\ kincaid_grade t1 = Value g1 /\ kincaid_grade t2 = Value g2
    /\ (e2 <= e1)%R /\ (g1 <= g2)%R.
Proof.
  intros H1 H2 Hw Hs.
  destruct (element_values t1 H1) as [He1 Hg1].
  destruct (element_values t2 H2) as [He2 Hg2].
  rewrite He1, He2, Hg1, Hg2. eexists _, _, _, _.
  repeat (split; [reflexivity|]). split; lra.
Qed.

(** Three words of one syllable against three words of two. *)
Lemma X17_metrics_order_oppositely_witness :
  exists e1 e2 g1 g2,
    reading_ease {| num_sentences := 1; num_words := 3; num_syllables := 3 |}
    = Value e1
    /\ reading_ease
         {| num_sentences := 1; num_words := 3; num_syllables := 6 |}
       = Value e2
    /\ kincaid_grade
         {| num_sentences := 1; num_words := 3; num_syllables := 3 |}
       = Value g1
    /\ kincaid_grade
         {| num_sentences := 1; num_words := 3; num_syllables := 6 |}
       = Value g2
    /\ (e2 <= e1)%R /\ (g1 <= g2)%R.
Proof.
  apply (X17_metrics_order_oppositely
           {| num_sentences := 1; num_words := 3; num_syllables := 3 |}
           {| num_sentences := 1; num_words := 3; num_syllables := 6 |});
    cbn [num_sentences num_words num_syllables].
  - reflexivity.
  - reflexivity.
  - apply Rle_refl.
  - assert (0 < INR 3)%R by (apply lt_0_INR; lia).
    assert (INR 3 <= INR 6)%R by (apply le_INR; lia).
    unfold Rdiv. apply Rmult_le_compat_r; [|assumption].
    left. now apply Rinv_0_lt_compat.
Defined.

End ReadabilityExtra.
